(** * TextAnnotator: the annotation / relation lifecycle controller

    A shallow embedding of [src/TextAnnotator.jsx].  The component's
    methods are written in a small state monad over a [World] that holds
    the React state ([this.state]), the queue of [setState] calls that are
    not committed yet, the three collaborators the component drives
    (Highlighter, SelectionHandler, RelationsLayer), the queue of
    [requestAnimationFrame] tasks, and a trace of every effect in the
    order in which the code performs it.

    JavaScript objects that are passed around by reference (annotations)
    carry an object identity [oid]; [clone] allocates a new one.  The
    trace [log] is kept newest first. *)

From stdpp Require Import base option list strings gmap pretty.

(** ** Data: annotations, selections, relations *)

(** A property value of an annotation body. *)
Inductive JsVal :=
  | JStr (s : string)
  | JBool (b : bool).

Global Instance JsVal_eq_dec : EqDecision JsVal.
Proof. solve_decision. Defined.

(** An annotation body is a plain JS object, keyed by property name. *)
Abbreviation Body := (gmap string JsVal).

(** The WebAnnotation / Selection wrapper of recogito-client-core.  A
    [Selection] answers [isSelection] with true, a [WebAnnotation] with
    false. *)
Record Annotation := mkAnnotation {
  oid : nat;
  id : string;
  bodies : list Body;
  target : string;
  isSelection : bool;
  annotationReadOnly : bool
}.

Global Instance Annotation_eq_dec : EqDecision Annotation.
Proof. solve_decision. Defined.

(** A relation wraps the connector's own annotation and refers to its two
    endpoint annotations by id. *)
Record Relation := mkRelation {
  annotation : Annotation;
  from : string;
  to : string
}.

Global Instance Relation_eq_dec : EqDecision Relation.
Proof. solve_decision. Defined.

(** DOM nodes are opaque handles. *)
Definition Element : Type := nat.

(** The optional argument of [clone(opt_props)]. *)
Record Props := mkProps {
  props_id : option string;
  props_body : option (list Body)
}.

Definition noProps : Props := {| props_id := None; props_body := None |}.

(** The object [clone(props)] builds, at object identity [o]. *)
Definition cloneAt (o : nat) (p : Props) (a : Annotation) : Annotation :=
  {| oid := o;
     id := default (id a) (props_id p);
     bodies := default (bodies a) (props_body p);
     target := target a;
     isSelection := isSelection a;
     annotationReadOnly := annotationReadOnly a |}.

(** [a.isEqual(b)]: equality of content, whatever the object. *)
Definition isEqual (a b : Annotation) : bool :=
  bool_decide (cloneAt 0 noProps a = cloneAt 0 noProps b).

(** [({ draft, ...rest }) => rest] *)
Definition withoutDraft (b : Body) : Body := delete "draft" b.

(** ** The component's state *)

Record State := mkState {
  selectedAnnotation : option Annotation;
  selectedDOMElement : option Element;
  selectedRelation : option Relation;
  readOnly : bool;
  widgets : list string;
  editorDisabled : bool
}.

(** The object literal handed to [setState]: the fields it mentions. *)
Record Update := mkUpdate {
  set_selectedAnnotation : option (option Annotation);
  set_selectedDOMElement : option (option Element);
  set_selectedRelation : option (option Relation);
  set_readOnly : option bool;
  set_widgets : option (list string);
  set_editorDisabled : option bool
}.

(** React merges the update into the state, field by field. *)
Definition merge (u : Update) (s : State) : State :=
  {| selectedAnnotation := default (selectedAnnotation s) (set_selectedAnnotation u);
     selectedDOMElement := default (selectedDOMElement s) (set_selectedDOMElement u);
     selectedRelation := default (selectedRelation s) (set_selectedRelation u);
     readOnly := default (readOnly s) (set_readOnly u);
     widgets := default (widgets s) (set_widgets u);
     editorDisabled := default (editorDisabled s) (set_editorDisabled u) |}.

(** The closures of the source, one constructor each. *)
Inductive Callback :=
  | CbSelect (selection : Annotation) (element : option Element)
  | CbOverrideId (originalAnnotation : Annotation) (forcedId : string)
  | CbOverrideRelationId (originalId forcedId : string)
  | CbSelectAnnotation (arg : option Annotation).

Inductive FrameTask :=
  | FrOverrideTarget (originalAnnotation : Annotation) (updatedAnnotation : option Annotation).

(** ** The trace *)

Inductive HostCallback :=
  | onAnnotationSelected
  | onAnnotationCreated
  | onAnnotationUpdated
  | onAnnotationDeleted
  | onCancelSelected.

Inductive Arg :=
  | AAnnotation (a : Annotation)
  | AElement (e : Element)
  | AOverrideRelationId (originalId : string)
  | ANull
  | AUndefined.

Inductive Effect :=
  | ESetState (u : Update)
  | ECommit (s : State)
  | EHost (cb : HostCallback) (args : list Arg)
  | EAddOrUpdateAnnotation (a : Annotation) (previous : option Annotation)
  | ERemoveAnnotation (a : Annotation)
  | EOverrideId (originalId forcedId : string)
  | EDestroyConnectionsFor (a : Annotation)
  | EAddOrUpdateRelation (r previous : Relation)
  | ERemoveRelation (r : Relation)
  | EOverrideTargetAnnotation (originalAnnotation : Annotation) (updated : option Annotation)
  | EOverrideRelationId (originalId forcedId : string)
  | EResetDrawing
  | EStartDrawing
  | EStopDrawing
  | ERelationsReadOnly (b : bool)
  | EClearSelection
  | ESelectionEnabled (b : bool)
  | ESelectionReadOnly (b : bool)
  | EClassList (add : bool)
  | ERequestAnimationFrame (t : FrameTask).

(** ** The collaborators *)

Module Highlighter.

(** Modelled from the spec: the class [Highlighter]
    ([./highlighter/Highlighter]) is not part of the source at hand.  The
    Highlight Engine "owns the mapping from annotation identity to
    rendered span(s)"; each span is a DOM node bound to its annotation. *)
Record Span := mkSpan {
  node : Element;
  bound : Annotation
}.

(** Modelled from the spec: the spans the Highlight Engine has rendered,
    in document order. *)
Definition t : Type := list Span.

(** Modelled from the spec: the span belongs to the annotation with id
    [i] (the engine maps "annotation identity to rendered span(s)"). *)
Definition hasId (i : string) (s : Span) : bool :=
  bool_decide (id (bound s) = i).

(** Modelled from the spec: "looks up its rendered span(s)". *)
Definition findAnnotationSpans (a : Annotation) (h : t) : list Span :=
  List.filter (hasId (id a)) h.

(** Modelled from the spec: "replaced in place", the span stays and is
    bound to [a]. *)
Definition rebind (key : Span -> bool) (a : Annotation) (s : Span) : Span :=
  if key s then {| node := node s; bound := a |} else s.

(** Modelled from the spec: "add-or-replace keyed by id; if previous
    given, the old entry is located and replaced in place".  A new entry
    is rendered on the fresh node [n]. *)
Definition addOrUpdateAnnotation (n : Element) (a : Annotation)
    (previous : option Annotation) (h : t) : t :=
  let key s :=
    hasId (id a) s || from_option (fun p => hasId (id p) s) false previous in
  if existsb key h then map (rebind key a) h
  else h ++ [{| node := n; bound := a |}].

(** Modelled from the spec: "removes the annotation from the Highlight
    Engine"; nothing happens when it is not there. *)
Definition removeAnnotation (a : Annotation) (h : t) : t :=
  List.filter (fun s => negb (hasId (id a) s)) h.

(** Modelled from the spec: "Perform the id swap in the Highlight Engine
    (returns the updated, authoritative annotation object/clone now
    carrying forcedId)"; "if originalAnnotation no longer exists, the
    swap on the Highlight Engine is a no-op".  The clone is built at
    object identity [o]. *)
Definition overrideId (o : nat) (originalId forcedId : string) (h : t)
    : option Annotation * t :=
  match List.filter (hasId originalId) h with
  | [] => (None, h)
  | s :: _ =>
      let updated :=
        cloneAt o {| props_id := Some forcedId; props_body := None |} (bound s) in
      (Some updated, map (rebind (hasId originalId) updated) h)
  end.

(** Modelled from the spec: the "list" operation of the Highlight Engine. *)
Definition getAllAnnotations (h : t) : list Annotation := map bound h.

(** Modelled from the spec: an annotation with id [i] is "present in the
    Highlight Engine". *)
Definition mem (i : string) (h : t) : bool := existsb (hasId i) h.

End Highlighter.

Module SelectionHandler.

(** Modelled from the spec: the class [SelectionHandler]
    ([./selection/SelectionHandler]) is not part of the source at hand.
    The controller writes its [enabled] and [readOnly] properties and
    asks it to drop the pending raw selection. *)
Record t := mk {
  enabled : bool;
  readOnly : bool;
  rawSelection : bool
}.

(** Modelled from the spec: "enabling/disabling the Selection Detector". *)
Definition setEnabled (b : bool) (h : t) : t :=
  {| enabled := b; readOnly := readOnly h; rawSelection := rawSelection h |}.

(** Modelled from the spec: the detector's own read-only property. *)
Definition setReadOnly (b : bool) (h : t) : t :=
  {| enabled := enabled h; readOnly := b; rawSelection := rawSelection h |}.

(** Modelled from the spec: "clears any pending raw selection". *)
Definition clearSelection (h : t) : t :=
  {| enabled := enabled h; readOnly := readOnly h; rawSelection := false |}.

End SelectionHandler.

Module RelationsLayer.

(** Modelled from the spec: the class [RelationsLayer]
    ([./relations/RelationsLayer]) is not part of the source at hand.  The
    Relation Layer "owns the mapping from relation identity to rendered
    connector(s) between two annotation endpoints", has a read-only flag
    and a drawing sub-mode with at most one connector in progress. *)
Record t := mk {
  relations : list Relation;
  readOnly : bool;
  drawing : bool;
  inProgress : bool
}.

(** Modelled from the spec: the layer with its relations replaced. *)
Definition withRelations (rs : list Relation) (l : t) : t :=
  {| relations := rs; readOnly := readOnly l; drawing := drawing l;
     inProgress := inProgress l |}.

(** Modelled from the spec: a relation's identity is the id of the
    annotation it wraps (the controller passes [relation.annotation.id]
    as the relation's id). *)
Definition relationId (r : Relation) : string := id (annotation r).

(** Modelled from the spec: the relation has identity [i]. *)
Definition hasId (i : string) (r : Relation) : bool :=
  bool_decide (relationId r = i).

(** Modelled from the spec: the "endpoint set" of the relation "includes"
    the id [i]. *)
Definition touches (i : string) (r : Relation) : bool :=
  bool_decide (from r = i) || bool_decide (to r = i).

(** Modelled from the spec: "add-or-replace keyed by id, same
    replace-in-place contract". *)
Definition addOrUpdateRelation (r previous : Relation) (l : t) : t :=
  let key x := hasId (relationId r) x || hasId (relationId previous) x in
  withRelations
    (if existsb key (relations l)
     then map (fun x => if key x then r else x) (relations l)
     else relations l ++ [r]) l.

(** Modelled from the spec: "removes the relation from the Relation
    Layer". *)
Definition removeRelation (r : Relation) (l : t) : t :=
  withRelations (List.filter (fun x => negb (hasId (relationId r) x)) (relations l)) l.

(** Modelled from the spec: "destroy every relation whose endpoint set
    includes this annotation's id". *)
Definition destroyConnectionsFor (a : Annotation) (l : t) : t :=
  withRelations (List.filter (fun x => negb (touches (id a) x)) (relations l)) l.

(** Modelled from the spec: an "endpoint reference equal to id is
    rewritten to reference forcedId". *)
Definition retargetEnd (i j e : string) : string :=
  if bool_decide (e = i) then j else e.

(** Modelled from the spec: both endpoint references of a relation,
    rewritten. *)
Definition retarget (i j : string) (r : Relation) : Relation :=
  {| annotation := annotation r;
     from := retargetEnd i j (from r);
     to := retargetEnd i j (to r) |}.

(** Modelled from the spec: "every relation with an endpoint reference
    equal to id is rewritten to reference forcedId"; the new id is read
    off the updated annotation, and without one (the swap was a no-op)
    nothing is rewritten. *)
Definition overrideTargetAnnotation (originalAnnotation : Annotation)
    (updated : option Annotation) (l : t) : t :=
  match updated with
  | Some u => withRelations (map (retarget (id originalAnnotation) (id u)) (relations l)) l
  | None => l
  end.

(** Modelled from the spec: the relation with identity [i] gets the
    identity [j]. *)
Definition renamed (i j : string) (r : Relation) : Relation :=
  if hasId i r
  then {| annotation :=
            {| oid := oid (annotation r); id := j;
               bodies := bodies (annotation r); target := target (annotation r);
               isSelection := isSelection (annotation r);
               annotationReadOnly := annotationReadOnly (annotation r) |};
          from := from r; to := to r |}
  else r.

(** Modelled from the spec: "perform the id swap in the Relation Layer". *)
Definition overrideRelationId (originalId forcedId : string) (l : t) : t :=
  withRelations (map (renamed originalId forcedId) (relations l)) l.

(** Modelled from the spec: "reset any in-progress relation drawing". *)
Definition resetDrawing (l : t) : t :=
  {| relations := relations l; readOnly := readOnly l; drawing := drawing l;
     inProgress := false |}.

(** Modelled from the spec: "mark the Relation Layer mutable" or
    "read-only". *)
Definition setReadOnly (b : bool) (l : t) : t :=
  {| relations := relations l; readOnly := b; drawing := drawing l;
     inProgress := inProgress l |}.

(** Modelled from the spec: "start drawing". *)
Definition startDrawing (l : t) : t :=
  {| relations := relations l; readOnly := readOnly l; drawing := true;
     inProgress := inProgress l |}.

(** Modelled from the spec: "stop drawing". *)
Definition stopDrawing (l : t) : t :=
  {| relations := relations l; readOnly := readOnly l; drawing := false;
     inProgress := inProgress l |}.

(** Modelled from the spec: relations are listed to the host as "every
    relation's wrapped annotation". *)
Definition getAllRelations (l : t) : list Annotation :=
  map annotation (relations l).

End RelationsLayer.

(** ** The world the component runs in *)

Record World := mkWorld {
  state : State;
  pending : list (Update * option Callback);
  batching : bool;
  highlighter : Highlighter.t;
  selectionHandler : SelectionHandler.t;
  relationsLayer : RelationsLayer.t;
  noselect : bool;
  frames : list FrameTask;
  log : list Effect;
  nextOid : nat;
  nextNode : nat;
  uuid : nat -> string;
  nextUuid : nat
}.

Definition withState (x : State) (w : World) : World :=
  mkWorld x (pending w) (batching w) (highlighter w) (selectionHandler w)
    (relationsLayer w) (noselect w) (frames w) (log w) (nextOid w) (nextNode w) (uuid w)
    (nextUuid w).

Definition withPending (x : list (Update * option Callback)) (w : World) : World :=
  mkWorld (state w) x (batching w) (highlighter w) (selectionHandler w)
    (relationsLayer w) (noselect w) (frames w) (log w) (nextOid w) (nextNode w) (uuid w)
    (nextUuid w).

Definition withHighlighter (x : Highlighter.t) (w : World) : World :=
  mkWorld (state w) (pending w) (batching w) x (selectionHandler w) (relationsLayer w)
    (noselect w) (frames w) (log w) (nextOid w) (nextNode w) (uuid w) (nextUuid w).

Definition withSelectionHandler (x : SelectionHandler.t) (w : World) : World :=
  mkWorld (state w) (pending w) (batching w) (highlighter w) x (relationsLayer w)
    (noselect w) (frames w) (log w) (nextOid w) (nextNode w) (uuid w) (nextUuid w).

Definition withRelationsLayer (x : RelationsLayer.t) (w : World) : World :=
  mkWorld (state w) (pending w) (batching w) (highlighter w) (selectionHandler w) x
    (noselect w) (frames w) (log w) (nextOid w) (nextNode w) (uuid w) (nextUuid w).

Definition withNoselect (x : bool) (w : World) : World :=
  mkWorld (state w) (pending w) (batching w) (highlighter w) (selectionHandler w)
    (relationsLayer w) x (frames w) (log w) (nextOid w) (nextNode w) (uuid w)
    (nextUuid w).

Definition withFrames (x : list FrameTask) (w : World) : World :=
  mkWorld (state w) (pending w) (batching w) (highlighter w) (selectionHandler w)
    (relationsLayer w) (noselect w) x (log w) (nextOid w) (nextNode w) (uuid w)
    (nextUuid w).

Definition withLog (x : list Effect) (w : World) : World :=
  mkWorld (state w) (pending w) (batching w) (highlighter w) (selectionHandler w)
    (relationsLayer w) (noselect w) (frames w) x (nextOid w) (nextNode w) (uuid w)
    (nextUuid w).

Definition withNextOid (x : nat) (w : World) : World :=
  mkWorld (state w) (pending w) (batching w) (highlighter w) (selectionHandler w)
    (relationsLayer w) (noselect w) (frames w) (log w) x (nextNode w) (uuid w)
    (nextUuid w).

Definition withNextNode (x : nat) (w : World) : World :=
  mkWorld (state w) (pending w) (batching w) (highlighter w) (selectionHandler w)
    (relationsLayer w) (noselect w) (frames w) (log w) (nextOid w) x (uuid w)
    (nextUuid w).

Definition withNextUuid (x : nat) (w : World) : World :=
  mkWorld (state w) (pending w) (batching w) (highlighter w) (selectionHandler w)
    (relationsLayer w) (noselect w) (frames w) (log w) (nextOid w) (nextNode w) (uuid w)
    x.

(** ** The monad of the component's methods *)

Definition M (A : Type) : Type := World -> A * World.

Global Instance M_ret : MRet M := fun A x w => (x, w).

Global Instance M_bind : MBind M :=
  fun A B f m w => let '(x, w') := m w in f x w'.

Definition get {A} (f : World -> A) : M A := fun w => (f w, w).

Definition modify (f : World -> World) : M unit := fun w => (tt, f w).

Definition emit (e : Effect) : M unit :=
  modify (fun w => withLog (e :: log w) w).

Definition exec (m : M unit) (w : World) : World := (m w).2.

(** *** The library's annotation methods *)

(** [a.clone(props)] makes a new object. *)
Definition clone (p : Props) (a : Annotation) : M Annotation :=
  o ← get nextOid;
  modify (withNextOid (S o));;
  mret (cloneAt o p a).

(** [selection.toAnnotation()] makes a new annotation object under a newly
    generated identifier. *)
Definition toAnnotation (a : Annotation) : M Annotation :=
  o ← get nextOid;
  generated ← get uuid;
  n ← get nextUuid;
  modify (withNextOid (S o));;
  modify (withNextUuid (S n));;
  mret {| oid := o; id := generated n; bodies := bodies a; target := target a;
          isSelection := false; annotationReadOnly := annotationReadOnly a |}.

(** *** Calls into the collaborators, each one traced *)

Definition highlighter_addOrUpdateAnnotation (a : Annotation)
    (previous : option Annotation) : M unit :=
  emit (EAddOrUpdateAnnotation a previous);;
  n ← get nextNode;
  modify (withNextNode (S n));;
  modify (fun w =>
    withHighlighter (Highlighter.addOrUpdateAnnotation n a previous (highlighter w)) w).

Definition highlighter_findAnnotationSpans (a : Annotation) : M (list Highlighter.Span) :=
  get (fun w => Highlighter.findAnnotationSpans a (highlighter w)).

Definition highlighter_removeAnnotation (a : Annotation) : M unit :=
  emit (ERemoveAnnotation a);;
  modify (fun w => withHighlighter (Highlighter.removeAnnotation a (highlighter w)) w).

Definition highlighter_overrideId (originalId forcedId : string) : M (option Annotation) :=
  emit (EOverrideId originalId forcedId);;
  o ← get nextOid;
  modify (withNextOid (S o));;
  r ← get (fun w => Highlighter.overrideId o originalId forcedId (highlighter w));
  modify (withHighlighter r.2);;
  mret r.1.

Definition relationsLayer_apply (e : Effect) (f : RelationsLayer.t -> RelationsLayer.t)
    : M unit :=
  emit e;;
  modify (fun w => withRelationsLayer (f (relationsLayer w)) w).

Definition selectionHandler_apply (e : Effect)
    (f : SelectionHandler.t -> SelectionHandler.t) : M unit :=
  emit e;;
  modify (fun w => withSelectionHandler (f (selectionHandler w)) w).

(** [this.selectionHandler.enabled = b] *)
Definition selectionHandler_setEnabled (b : bool) : M unit :=
  selectionHandler_apply (ESelectionEnabled b) (SelectionHandler.setEnabled b).

Definition selectionHandler_clearSelection : M unit :=
  selectionHandler_apply EClearSelection SelectionHandler.clearSelection.

Definition relationsLayer_resetDrawing : M unit :=
  relationsLayer_apply EResetDrawing RelationsLayer.resetDrawing.

Definition relationsLayer_overrideRelationId (originalId forcedId : string) : M unit :=
  relationsLayer_apply (EOverrideRelationId originalId forcedId)
    (RelationsLayer.overrideRelationId originalId forcedId).

(** [this.props[cb](...args)] *)
Definition props (cb : HostCallback) (args : list Arg) : M unit :=
  emit (EHost cb args).

Definition requestAnimationFrame (t : FrameTask) : M unit :=
  emit (ERequestAnimationFrame t);;
  modify (fun w => withFrames (frames w ++ [t]) w).

(** *** setState

    [this.setState] does not change [this.state] when React batches
    updates: the update is queued, merged into the state at the next
    commit, and the callbacks run after that commit.  Outside a batch the
    update is committed on the spot and the callback runs at once.
    [batching] says which of the two holds; every commit is an observed
    state and is traced. *)

Definition commit (u : Update) : M unit :=
  modify (fun w => withState (merge u (state w)) w);;
  s ← get state;
  emit (ECommit s).

Definition enqueue (u : Update) (cb : option Callback) : M unit :=
  modify (fun w => withPending (pending w ++ [(u, cb)]) w).

(** [this.setState(u)] *)
Definition setState (u : Update) : M unit :=
  emit (ESetState u);;
  b ← get batching;
  if b : bool then enqueue u None else commit u.

(** [{ selectedAnnotation: a, selectedDOMElement: e }] *)
Definition selecting (a : option Annotation) (e : option Element) : Update :=
  {| set_selectedAnnotation := Some a; set_selectedDOMElement := Some e;
     set_selectedRelation := None; set_readOnly := None;
     set_widgets := None; set_editorDisabled := None |}.

(** [{ selectedRelation: r }] *)
Definition selectingRelation (r : option Relation) : Update :=
  {| set_selectedAnnotation := None; set_selectedDOMElement := None;
     set_selectedRelation := Some r; set_readOnly := None;
     set_widgets := None; set_editorDisabled := None |}.

(** [{ selectedAnnotation: null, selectedRelation: null }] *)
Definition closingEditors : Update :=
  {| set_selectedAnnotation := Some None; set_selectedDOMElement := None;
     set_selectedRelation := Some None; set_readOnly := None;
     set_widgets := None; set_editorDisabled := None |}.

(** [updateDependentRelations] inside [overrideAnnotationId] *)
Definition updateDependentRelations (originalAnnotation : Annotation)
    (updatedAnnotation : option Annotation) : M unit :=
  requestAnimationFrame (FrOverrideTarget originalAnnotation updatedAnnotation).

(** The bodies of the closures given to [setState] as its second
    argument. *)
Definition runCallback (cb : Callback) : M unit :=
  match cb with
  | CbSelect selection element =>
      setState (selecting (Some selection) element)
  | CbOverrideId originalAnnotation forcedId =>
      updated ← highlighter_overrideId (id originalAnnotation) forcedId;
      updateDependentRelations originalAnnotation updated
  | CbOverrideRelationId originalId forcedId =>
      relationsLayer_overrideRelationId originalId forcedId
  | CbSelectAnnotation arg =>
      match arg with
      | Some a =>
          spans ← highlighter_findAnnotationSpans a;
          match spans with
          | s :: _ =>
              setState (selecting (Some (Highlighter.bound s)) (Some (Highlighter.node s)))
          | [] => mret tt
          end
      | None => mret tt
      end
  end.

(** [this.setState(u, cb)] *)
Definition setStateThen (u : Update) (cb : Callback) : M unit :=
  emit (ESetState u);;
  b ← get batching;
  if b : bool then enqueue u (Some cb) else (commit u;; runCallback cb).

Fixpoint runCallbacks (cbs : list Callback) : M unit :=
  match cbs with
  | [] => mret tt
  | cb :: rest => runCallback cb;; runCallbacks rest
  end.

(** One commit of the queued updates: merge them in order and render. *)
Definition commitQueue (q : list (Update * option Callback)) : M unit :=
  modify (withPending []);;
  modify (fun w => withState (foldl (fun s uc => merge uc.1 s) (state w) q) w);;
  s ← get state;
  emit (ECommit s).

(** ... then run their callbacks. *)
Definition flushOnce (q : list (Update * option Callback)) : M unit :=
  commitQueue q;;
  runCallbacks (omap snd q).

(** Commit until nothing is queued; callbacks may queue again. *)
Fixpoint flush (fuel : nat) : M unit :=
  match fuel with
  | 0 => mret tt
  | S n =>
      q ← get pending;
      match q with
      | [] => mret tt
      | _ => flushOnce q;; flush n
      end
  end.

(** ** The methods of TextAnnotator *)

Definition argOfAnnotation (a : option Annotation) : Arg :=
  match a with Some x => AAnnotation x | None => AUndefined end.

Definition argOfElement (e : option Element) : Arg :=
  match e with Some x => AElement x | None => AUndefined end.

(** Shorthand *)
Definition clearState : M unit :=
  setState (selecting None None);;
  selectionHandler_setEnabled true.

Definition onChanged : M unit :=
  selectionHandler_setEnabled false.

(** Common handler for annotation CREATE or UPDATE; [method] is the name
    of the host callback. *)
Definition onCreateOrUpdateAnnotation (method : HostCallback)
    (annotation : Annotation) (previous : option Annotation) : M unit :=
  updatedAnnotation ← clone noProps annotation;
  highlighter_addOrUpdateAnnotation updatedAnnotation previous;;
  previousArg ← match previous with
                | Some p => c ← clone noProps p; mret (AAnnotation c)
                | None => mret ANull
                end;
  props method [AAnnotation updatedAnnotation; previousArg];;
  spans ← highlighter_findAnnotationSpans updatedAnnotation;
  setState (selecting (Some updatedAnnotation) (Highlighter.node <$> head spans)).

Definition onNormalSelect (selection : option Annotation) (element : option Element)
    : M unit :=
  match selection with
  | Some selection =>
      setStateThen (selecting None None) (CbSelect selection element);;
      if negb (isSelection selection)
      then c ← clone noProps selection;
           props onAnnotationSelected [AAnnotation c; argOfElement element]
      else mret tt
  | None => clearState
  end.

(** [undraft] inside [onHeadlessSelect] *)
Definition undraft (annotation : Annotation) : M Annotation :=
  clone {| props_id := None; props_body := Some (map withoutDraft (bodies annotation)) |}
    annotation.

Definition onHeadlessSelect (selection : option Annotation) (element : option Element)
    : M unit :=
  match selection with
  | Some selection =>
      setStateThen (selecting None None) (CbSelect selection element);;
      if negb (isSelection selection)
      then c ← clone noProps selection;
           props onAnnotationSelected [AAnnotation c; argOfElement element]
      else u ← undraft selection;
           a ← toAnnotation u;
           onCreateOrUpdateAnnotation onAnnotationCreated a None
  | None => clearState
  end.

(** Selection on the text *)
Definition handleSelect (selection : option Annotation) (element : option Element)
    : M unit :=
  s ← get state;
  if editorDisabled s then onHeadlessSelect selection element
  else onNormalSelect selection element.

Definition overrideAnnotationId (originalAnnotation : Annotation) (forcedId : string)
    : M unit :=
  s ← get state;
  if bool_decide (is_Some (selectedAnnotation s)) || bool_decide (is_Some (selectedRelation s))
  then relationsLayer_resetDrawing;;
       setStateThen closingEditors (CbOverrideId originalAnnotation forcedId)
  else updated ← highlighter_overrideId (id originalAnnotation) forcedId;
       updateDependentRelations originalAnnotation updated.

Definition overrideRelationId (originalId forcedId : string) : M unit :=
  s ← get state;
  if bool_decide (is_Some (selectedRelation s))
  then setStateThen (selectingRelation None) (CbOverrideRelationId originalId forcedId)
  else relationsLayer_overrideRelationId originalId forcedId.

Definition onDeleteAnnotation (annotation : Annotation) : M unit :=
  relationsLayer_apply (EDestroyConnectionsFor annotation)
    (RelationsLayer.destroyConnectionsFor annotation);;
  clearState;;
  selectionHandler_clearSelection;;
  highlighter_removeAnnotation annotation;;
  props onAnnotationDeleted [AAnnotation annotation].

(** Cancel button on annotation editor; the argument is missing when the
    call comes from [handleEscape]. *)
Definition onCancelAnnotation (annotation : option Annotation) : M unit :=
  clearState;;
  selectionHandler_clearSelection;;
  props onCancelSelected [argOfAnnotation annotation].

Definition handleEscape (which : nat) : M unit :=
  if bool_decide (which = 27) then onCancelAnnotation None else mret tt.

(** Shorthand *)
Definition closeRelationsEditor : M unit :=
  setState (selectingRelation None);;
  relationsLayer_resetDrawing.

Definition onEditRelation (relation : Relation) : M unit :=
  setState (selectingRelation (Some relation)).

(** 'Ok' on the relation editor popup *)
Definition onCreateOrUpdateRelation (relation previous : Relation) : M unit :=
  relationsLayer_apply (EAddOrUpdateRelation relation previous)
    (RelationsLayer.addOrUpdateRelation relation previous);;
  closeRelationsEditor;;
  let isNew := bool_decide (length (bodies (annotation previous)) = 0) in
  if isNew
  then c ← clone noProps (annotation relation);
       props onAnnotationCreated
         [AAnnotation c; AOverrideRelationId (id (annotation relation))]
  else c ← clone noProps (annotation relation);
       p ← clone noProps (annotation previous);
       props onAnnotationUpdated [AAnnotation c; AAnnotation p].

(** 'Delete' on the relation editor popup *)
Definition onDeleteRelation (relation : Relation) : M unit :=
  relationsLayer_apply (ERemoveRelation relation) (RelationsLayer.removeRelation relation);;
  closeRelationsEditor;;
  props onAnnotationDeleted [AAnnotation (annotation relation)].

(** [onCreateOrUpdateAnnotation] under a host whose callback calls back
    into the component: [this.props[method](...)] is host code, and
    [reaction] is what that code does with the annotation it is handed
    before it returns. *)
Definition onCreateOrUpdateAnnotation_calling (reaction : Annotation -> M unit)
    (method : HostCallback) (annotation : Annotation) (previous : option Annotation)
    : M unit :=
  updatedAnnotation ← clone noProps annotation;
  highlighter_addOrUpdateAnnotation updatedAnnotation previous;;
  previousArg ← match previous with
                | Some p => c ← clone noProps p; mret (AAnnotation c)
                | None => mret ANull
                end;
  props method [AAnnotation updatedAnnotation; previousArg];;
  reaction updatedAnnotation;;
  spans ← highlighter_findAnnotationSpans updatedAnnotation;
  setState (selecting (Some updatedAnnotation) (Highlighter.node <$> head spans)).

(** *** External API *)

Definition addAnnotation (annotation : Annotation) : M unit :=
  c ← clone noProps annotation;
  highlighter_addOrUpdateAnnotation c None.

Definition get_disableSelect (w : World) : bool :=
  negb (SelectionHandler.enabled (selectionHandler w)).

Definition set_disableSelect (disable : bool) : M unit :=
  emit (EClassList disable);;
  modify (withNoselect disable);;
  selectionHandler_setEnabled (negb disable).

Fixpoint cloneAll (l : list Annotation) : M (list Annotation) :=
  match l with
  | [] => mret []
  | a :: rest => c ← clone noProps a; cs ← cloneAll rest; mret (c :: cs)
  end.

Definition getAnnotations : M (list Annotation) :=
  annotations ← get (fun w => Highlighter.getAllAnnotations (highlighter w));
  relations ← get (fun w => RelationsLayer.getAllRelations (relationsLayer w));
  cloneAll (annotations ++ relations).

Definition removeAnnotation (annotation : Annotation) : M unit :=
  highlighter_removeAnnotation annotation;;
  s ← get state;
  match selectedAnnotation s with
  | Some selected => if isEqual annotation selected then clearState else mret tt
  | None => mret tt
  end.

Definition selectAnnotation (arg : option Annotation) : M unit :=
  setStateThen (selecting None None) (CbSelectAnnotation arg).

Definition setMode (mode : string) : M unit :=
  if bool_decide (mode = "RELATIONS")
  then clearState;;
       selectionHandler_setEnabled false;;
       relationsLayer_apply (ERelationsReadOnly false) (RelationsLayer.setReadOnly false);;
       relationsLayer_apply EStartDrawing RelationsLayer.startDrawing
  else setState (selectingRelation None);;
       selectionHandler_setEnabled true;;
       relationsLayer_apply (ERelationsReadOnly true) (RelationsLayer.setReadOnly true);;
       relationsLayer_apply EStopDrawing RelationsLayer.stopDrawing.

Definition set_readOnlyProperty (b : bool) : M unit :=
  selectionHandler_apply (ESelectionReadOnly b) (SelectionHandler.setReadOnly b);;
  setState {| set_selectedAnnotation := None; set_selectedDOMElement := None;
              set_selectedRelation := None; set_readOnly := Some b;
              set_widgets := None; set_editorDisabled := None |}.

Definition set_widgetsProperty (ws : list string) : M unit :=
  setState {| set_selectedAnnotation := None; set_selectedDOMElement := None;
              set_selectedRelation := None; set_readOnly := None;
              set_widgets := Some ws; set_editorDisabled := None |}.

Definition set_disableEditor (disabled : bool) : M unit :=
  setState {| set_selectedAnnotation := None; set_selectedDOMElement := None;
              set_selectedRelation := None; set_readOnly := None;
              set_widgets := None; set_editorDisabled := Some disabled |}.

(** *** render *)

Record View := mkView {
  editor : option (Annotation * option Element * bool);
  relationEditor : option Relation
}.

(** The editor should open under normal conditions - annotation was
    selected, no headless mode. *)
Definition open (s : State) : bool :=
  (bool_decide (is_Some (selectedAnnotation s))
   || bool_decide (is_Some (selectedRelation s)))
  && negb (editorDisabled s).

Definition render (s : State) : option View :=
  if open s
  then Some {| editor :=
                 (fun a => (a, selectedDOMElement s,
                            readOnly s || annotationReadOnly a))
                   <$> selectedAnnotation s;
               relationEditor := selectedRelation s |}
  else None.

(** ** Events and runs *)

(** What reaches the controller: the events it subscribes to in
    [componentDidMount], the outcomes of the two editor popups wired in
    [render], the calls of the external API, and the browser's animation
    frame. *)
Inductive Event :=
  | Select (selection : option Annotation) (element : option Element)
  | KeyDown (which : nat)
  | EditorChanged
  | EditorCreated (a : Annotation) (previous : option Annotation)
  | EditorUpdated (a : Annotation) (previous : option Annotation)
  | EditorDeleted (a : Annotation)
  | EditorCancel (a : option Annotation)
  | CreateRelation (r : Relation)
  | SelectRelation (r : Relation)
  | CancelDrawing
  | RelationConfirmed (r previous : Relation)
  | RelationDeleted (r : Relation)
  | RelationCancel
  | OverrideAnnotationId (originalAnnotation : Annotation) (forcedId : string)
  | OverrideRelationId (originalId forcedId : string)
  | AddAnnotation (a : Annotation)
  | RemoveAnnotation (a : Annotation)
  | SelectAnnotation (arg : option Annotation)
  | SetMode (mode : string)
  | SetDisableSelect (disable : bool)
  | SetReadOnly (b : bool)
  | SetWidgets (ws : list string)
  | SetDisableEditor (disabled : bool)
  | AnimationFrame.

Definition runFrameTask (t : FrameTask) : M unit :=
  match t with
  | FrOverrideTarget originalAnnotation updatedAnnotation =>
      relationsLayer_apply (EOverrideTargetAnnotation originalAnnotation updatedAnnotation)
        (RelationsLayer.overrideTargetAnnotation originalAnnotation updatedAnnotation)
  end.

Fixpoint runFrameTasks (ts : list FrameTask) : M unit :=
  match ts with
  | [] => mret tt
  | t :: rest => runFrameTask t;; runFrameTasks rest
  end.

Definition animationFrame : M unit :=
  ts ← get frames;
  modify (withFrames []);;
  runFrameTasks ts.

Definition handle (ev : Event) : M unit :=
  match ev with
  | Select selection element => handleSelect selection element
  | KeyDown which => handleEscape which
  | EditorChanged => onChanged
  | EditorCreated a previous => onCreateOrUpdateAnnotation onAnnotationCreated a previous
  | EditorUpdated a previous => onCreateOrUpdateAnnotation onAnnotationUpdated a previous
  | EditorDeleted a => onDeleteAnnotation a
  | EditorCancel a => onCancelAnnotation a
  | CreateRelation r => onEditRelation r
  | SelectRelation r => onEditRelation r
  | CancelDrawing => closeRelationsEditor
  | RelationConfirmed r previous => onCreateOrUpdateRelation r previous
  | RelationDeleted r => onDeleteRelation r
  | RelationCancel => closeRelationsEditor
  | OverrideAnnotationId originalAnnotation forcedId =>
      overrideAnnotationId originalAnnotation forcedId
  | OverrideRelationId originalId forcedId => overrideRelationId originalId forcedId
  | AddAnnotation a => addAnnotation a
  | RemoveAnnotation a => removeAnnotation a
  | SelectAnnotation arg => selectAnnotation arg
  | SetMode mode => setMode mode
  | SetDisableSelect disable => set_disableSelect disable
  | SetReadOnly b => set_readOnlyProperty b
  | SetWidgets ws => set_widgetsProperty ws
  | SetDisableEditor disabled => set_disableEditor disabled
  | AnimationFrame => animationFrame
  end.

(** One event: the handler runs to its end, then the queued state updates
    are committed.  Two rounds of commits are enough, since no callback of
    this component hands a callback to [setState]: nothing is left in the
    queue ([run_quiescent]). *)
Definition run (ev : Event) (w : World) : World :=
  exec (handle ev;; flush 2) w.

Definition runs (evs : list Event) (w : World) : World :=
  foldl (fun w ev => run ev w) w evs.

(** The constructor and [componentDidMount]; [heap] is the first object
    identity that is not in use yet, [ids] the identifiers the library
    will generate.  The collaborators start as the spec's NORMAL mode has
    them: selection enabled, the Relation Layer read-only and not
    drawing. *)
Record Config := mkConfig {
  config_readOnly : bool;
  config_widgets : list string;
  config_disableEditor : bool
}.

Definition mount (batch : bool) (config : Config) (heap : nat) (ids : nat -> string)
    : World :=
  {| state := {| selectedAnnotation := None; selectedDOMElement := None;
                 selectedRelation := None; readOnly := config_readOnly config;
                 widgets := config_widgets config;
                 editorDisabled := config_disableEditor config |};
     pending := [];
     batching := batch;
     highlighter := [];
     selectionHandler := {| SelectionHandler.enabled := true;
                            SelectionHandler.readOnly := config_readOnly config;
                            SelectionHandler.rawSelection := false |};
     relationsLayer := {| RelationsLayer.relations := [];
                          RelationsLayer.readOnly := true;
                          RelationsLayer.drawing := false;
                          RelationsLayer.inProgress := false |};
     noselect := false;
     frames := [];
     log := [];
     nextOid := heap;
     nextNode := 0;
     uuid := ids;
     nextUuid := 0 |}.

(** ** Notions the statements are written with *)

(** Nothing is waiting to be committed: the state the component is in
    between two events. *)
Definition quiescent (w : World) : Prop := pending w = [].

(** What a run added to the trace, oldest first. *)
Definition emitted (w w' : World) : list Effect :=
  rev (take (length (log w') - length (log w)) (log w')).

Definition isCommit (e : Effect) : option State :=
  match e with ECommit s => Some s | _ => None end.

(** The states that were committed and rendered, oldest first. *)
Definition observed (l : list Effect) : list State := omap isCommit l.

Definition isHost (e : Effect) : bool :=
  match e with EHost _ _ => true | _ => false end.

(** The notifications the host received. *)
Definition hostCalls (l : list Effect) : list Effect := List.filter isHost l.

(** The writes to the Highlight Engine. *)
Definition highlighterWrites (l : list Effect) : list Effect :=
  List.filter (fun e => match e with EAddOrUpdateAnnotation _ _ => true | _ => false end) l.

(** The calls the component made, without the commits React interleaves. *)
Definition steps (l : list Effect) : list Effect :=
  List.filter (fun e => negb (bool_decide (is_Some (isCommit e)))) l.

Definition argAnnotation (a : Arg) : option Annotation :=
  match a with AAnnotation x => Some x | _ => None end.

(** The annotation objects handed to the host. *)
Definition payloads (l : list Effect) : list Annotation :=
  flat_map (fun e => match e with EHost _ args => omap argAnnotation args | _ => [] end) l.

(** At most one of the two editors has a target. *)
Definition exclusive (s : State) : Prop :=
  selectedAnnotation s = None \/ selectedRelation s = None.

(** The element goes with the annotation. *)
Definition paired (s : State) : Prop :=
  is_Some (selectedDOMElement s) <-> is_Some (selectedAnnotation s).

(** The handlers that notify the host with the object they were given. *)
Definition passesArgument (ev : Event) : bool :=
  match ev with
  | EditorDeleted _ | EditorCancel _ | RelationDeleted _ => true
  | _ => false
  end.

(** The events that run the annotation create/update path. *)
Definition createsAnnotation (ev : Event) (w : World) : bool :=
  match ev with
  | EditorCreated _ _ | EditorUpdated _ _ => true
  | Select (Some selection) _ => isSelection selection && editorDisabled (state w)
  | _ => false
  end.

(** The events whose handlers notify nobody, or with no annotation. *)
Definition silent (ev : Event) (w : World) : Prop :=
  match ev with
  | Select (Some selection) _ =>
      isSelection selection = true /\ editorDisabled (state w) = false
  | EditorCreated _ _ | EditorUpdated _ _ | EditorDeleted _ | EditorCancel _
  | RelationConfirmed _ _ | RelationDeleted _ => False
  | _ => True
  end.

(** A select event that has a selection has its element too. *)
Definition carriesElement (ev : Event) : Prop :=
  match ev with
  | Select (Some _) None => False
  | _ => True
  end.

Definition isOverrideAnnotationId (ev : Event) : bool :=
  match ev with OverrideAnnotationId _ _ => true | _ => false end.

(** The Relation Layer is in its drawing sub-mode: the component is in
    RELATIONS mode. *)
Definition drawingRelations (w : World) : bool :=
  RelationsLayer.drawing (relationsLayer w).

(** What the mode stands for: while the Relation Layer draws, no
    annotation is selected and the selection handler is disabled;
    otherwise no relation is selected. *)
Definition modal (w : World) : Prop :=
  if drawingRelations w
  then selectedAnnotation (state w) = None
       /\ SelectionHandler.enabled (selectionHandler w) = false
  else selectedRelation (state w) = None.

(** What holds between two events. *)
Definition inMode (w : World) : Prop :=
  quiescent w /\ modal w /\ Forall exclusive (observed (log w)).

(** Worlds reachable from a mounted component through events that satisfy
    [ok] in the world they arrive in. *)
Inductive reachableVia (ok : Event -> World -> Prop) : World -> Prop :=
  | reach_mount batch config heap ids : reachableVia ok (mount batch config heap ids)
  | reach_run ev w : reachableVia ok w -> ok ev w -> reachableVia ok (run ev w).

Definition anyEvent (ev : Event) (w : World) : Prop := True.

(** The collaborators and the host go by the mode. *)
Definition respectsMode (ev : Event) (w : World) : Prop :=
  match ev with
  | Select _ _ => SelectionHandler.enabled (selectionHandler w) = true
  | CreateRelation _ | SelectRelation _ => drawingRelations w = true
  | EditorCreated _ _ | EditorUpdated _ _ | EditorDeleted _ | EditorCancel _ =>
      is_Some (selectedAnnotation (state w))
  | KeyDown which => which = 27 -> drawingRelations w = false
  | SelectAnnotation (Some _) => drawingRelations w = false
  | SetDisableSelect disable => disable = false -> drawingRelations w = false
  | _ => True
  end.

(** The events whose handler ends up in [clearState], or in the branch of
    [setMode] for a mode other than RELATIONS. *)
Definition reenables (ev : Event) (w : World) : Prop :=
  match ev with
  | Select None _ => True
  | EditorDeleted _ => True
  | EditorCancel _ => True
  | KeyDown which => which = 27
  | RemoveAnnotation a =>
      exists selected,
        selectedAnnotation (state w) = Some selected /\ isEqual a selected = true
  | SetMode mode => mode <> "RELATIONS"
  | _ => False
  end.

(** The identities of the objects the component and its collaborators
    hold on to. *)
Definition storedOids (w : World) : list nat :=
  map (fun s => oid (Highlighter.bound s)) (highlighter w)
  ++ map (fun r => oid (annotation r)) (RelationsLayer.relations (relationsLayer w))
  ++ option_list (oid <$> selectedAnnotation (state w))
  ++ option_list ((fun r => oid (annotation r)) <$> selectedRelation (state w)).

(** The host cannot reach a stored object through [a]. *)
Definition detached (w : World) (a : Annotation) : Prop :=
  Forall (fun o => o <> oid a) (storedOids w).

(** [a] was made while the world went from [w] to [w']. *)
Definition madeBetween (w w' : World) (a : Annotation) : Prop :=
  nextOid w <= oid a < nextOid w'.

(** The annotation objects an event brings along. *)
Definition eventObjects (ev : Event) : list Annotation :=
  match ev with
  | Select selection _ => option_list selection
  | EditorCreated a previous | EditorUpdated a previous => a :: option_list previous
  | EditorDeleted a => [a]
  | EditorCancel a => option_list a
  | CreateRelation r | SelectRelation r | RelationDeleted r => [annotation r]
  | RelationConfirmed r previous => [annotation r; annotation previous]
  | OverrideAnnotationId a _ | AddAnnotation a | RemoveAnnotation a => [a]
  | SelectAnnotation arg => option_list arg
  | _ => []
  end.

(** Every object in sight exists already: the allocator is past it. *)
Definition allocated (ev : Event) (w : World) : Prop :=
  Forall (fun o => o < nextOid w) (storedOids w)
  /\ Forall (fun a => oid a < nextOid w) (eventObjects ev).

(** What an animation frame task writes to the trace and does to the
    Relation Layer. *)
Definition frameEffect (t : FrameTask) : Effect :=
  match t with FrOverrideTarget o u => EOverrideTargetAnnotation o u end.

Definition frameAction (l : RelationsLayer.t) (t : FrameTask) : RelationsLayer.t :=
  match t with FrOverrideTarget o u => RelationsLayer.overrideTargetAnnotation o u l end.

(** The annotation the headless branch creates out of a fresh selection. *)
Definition headlessCreated (w : World) (selection : Annotation) : Annotation :=
  cloneAt (S (S (nextOid w))) noProps
    {| oid := S (nextOid w); id := uuid w (nextUuid w);
       bodies := map withoutDraft (bodies selection); target := target selection;
       isSelection := false; annotationReadOnly := annotationReadOnly selection |}.

(** Two annotation objects with the same content: what [clone()] keeps. *)
Definition sameContent (a b : Annotation) : Prop :=
  id a = id b /\ bodies a = bodies b /\ target a = target b
  /\ isSelection a = isSelection b /\ annotationReadOnly a = annotationReadOnly b.

(** The annotations whose clones a handler hands to the host. *)
Definition clonedFor (ev : Event) : list Annotation :=
  match ev with
  | Select (Some selection) _ => if isSelection selection then [] else [selection]
  | EditorCreated a previous | EditorUpdated a previous => a :: option_list previous
  | RelationConfirmed r previous =>
      annotation r
      :: (if bool_decide (length (bodies (annotation previous)) = 0)
          then [] else [annotation previous])
  | _ => []
  end.

(** The trace up to the first notification of the host. *)
Fixpoint untilHost (l : list Effect) : list Effect :=
  match l with
  | [] => []
  | e :: rest => if isHost e then [] else e :: untilHost rest
  end.

(** The state the component is in, the one [this.state] reads and the
    rendered editors show, at the moment the host is first notified on the
    way from [w] to [w']. *)
Definition stateAtHost (w w' : World) : State :=
  default (state w) (last (observed (untilHost (emitted w w')))).

(** ** Notions for the further properties *)

(** The host callback of a notification. *)
Definition callbackOf (e : Effect) : option HostCallback :=
  match e with EHost cb _ => Some cb | _ => None end.

(** The one callback an event makes the component call, if it calls any. *)
Definition notifies (ev : Event) (w : World) : option HostCallback :=
  match ev with
  | Select (Some selection) _ =>
      if isSelection selection
      then (if editorDisabled (state w) then Some onAnnotationCreated else None)
      else Some onAnnotationSelected
  | KeyDown which => if bool_decide (which = 27) then Some onCancelSelected else None
  | EditorCreated _ _ => Some onAnnotationCreated
  | EditorUpdated _ _ => Some onAnnotationUpdated
  | EditorDeleted _ => Some onAnnotationDeleted
  | EditorCancel _ => Some onCancelSelected
  | RelationConfirmed _ previous =>
      if bool_decide (length (bodies (annotation previous)) = 0)
      then Some onAnnotationCreated else Some onAnnotationUpdated
  | RelationDeleted _ => Some onAnnotationDeleted
  | _ => None
  end.

(** The events whose handlers do not assign [selectionHandler.enabled]. *)
Definition keepsSelectionFlag (ev : Event) (w : World) : Prop :=
  match ev with
  | Select (Some _) _ | EditorCreated _ _ | EditorUpdated _ _
  | CreateRelation _ | SelectRelation _ | CancelDrawing | RelationConfirmed _ _
  | RelationDeleted _ | RelationCancel | OverrideAnnotationId _ _
  | OverrideRelationId _ _ | AddAnnotation _ | SelectAnnotation _
  | SetReadOnly _ | SetWidgets _ | SetDisableEditor _ | AnimationFrame => True
  | KeyDown which => which <> 27
  | RemoveAnnotation a =>
      forall selected,
        selectedAnnotation (state w) = Some selected -> isEqual a selected = false
  | _ => False
  end.

Definition isSetDisableSelect (ev : Event) : bool :=
  match ev with SetDisableSelect _ => true | _ => false end.

(** The events whose handlers never call [setState]. *)
Definition callsNoSetState (ev : Event) (w : World) : Prop :=
  match ev with
  | EditorChanged | AddAnnotation _ | SetDisableSelect _ | AnimationFrame => True
  | KeyDown which => which <> 27
  | OverrideAnnotationId _ _ =>
      selectedAnnotation (state w) = None /\ selectedRelation (state w) = None
  | OverrideRelationId _ _ => selectedRelation (state w) = None
  | RemoveAnnotation a =>
      forall selected,
        selectedAnnotation (state w) = Some selected -> isEqual a selected = false
  | _ => False
  end.

(** The configuration part of the state. *)
Definition settings (s : State) : bool * list string * bool :=
  (readOnly s, widgets s, editorDisabled s).

(** The events that are not one of the three property setters. *)
Definition keepsSettings (ev : Event) : bool :=
  match ev with
  | SetReadOnly _ | SetWidgets _ | SetDisableEditor _ => false
  | _ => true
  end.

(** The selection part of the state. *)
Definition selectionOf (s : State)
    : option Annotation * option Element * option Relation :=
  (selectedAnnotation s, selectedDOMElement s, selectedRelation s).

(** The events that close the relation editor. *)
Definition closesRelationEditor (ev : Event) : bool :=
  match ev with
  | CancelDrawing | RelationCancel | RelationDeleted _ => true
  | _ => false
  end.

(** The clones [getAnnotations] makes of a list, the first at object
    identity [o]. *)
Fixpoint clonesFrom (o : nat) (l : list Annotation) : list Annotation :=
  match l with
  | [] => []
  | a :: rest => cloneAt o noProps a :: clonesFrom (S o) rest
  end.

(** ** Sample data *)

Module Sample.

Definition normal : Config :=
  {| config_readOnly := false; config_widgets := ["COMMENT"; "TAG"];
     config_disableEditor := false |}.

Definition headless : Config :=
  {| config_readOnly := false; config_widgets := [];
     config_disableEditor := true |}.

Definition comment (text : string) : Body :=
  {[ "purpose" := JStr "commenting"; "value" := JStr text ]}.

Definition draftTag (text : string) : Body :=
  <[ "draft" := JBool true ]> {[ "purpose" := JStr "tagging"; "value" := JStr text ]}.

(** Annotation A of the spec's scenarios, with its local id. *)
Definition A : Annotation :=
  {| oid := 1; id := "local-1"; bodies := [comment "a note"]; target := "chars 0-5";
     isSelection := false; annotationReadOnly := false |}.

Definition B : Annotation :=
  {| oid := 2; id := "local-2"; bodies := [comment "another"]; target := "chars 9-12";
     isSelection := false; annotationReadOnly := false |}.

(** A fresh selection with one draft body and one body that is not. *)
Definition draft : Annotation :=
  {| oid := 3; id := "selection"; bodies := [draftTag "person"; comment "kept"];
     target := "chars 20-26"; isSelection := true; annotationReadOnly := false |}.

(** Relation R between A and B, and the empty connection the relation
    editor hands over as [previous] when R is new. *)
Definition R : Relation :=
  {| annotation := {| oid := 4; id := "rel-1"; bodies := [comment "knows"]; target := "";
                      isSelection := false; annotationReadOnly := false |};
     from := "local-1"; to := "local-2" |}.

Definition emptyR : Relation :=
  {| annotation := {| oid := 5; id := "rel-1"; bodies := []; target := "";
                      isSelection := false; annotationReadOnly := false |};
     from := "local-1"; to := "local-2" |}.

(** The editor's working copy of A after an edit. *)
Definition edited : Annotation :=
  {| oid := 7; id := "local-1"; bodies := [comment "a longer note"];
     target := "chars 0-5"; isSelection := false; annotationReadOnly := false |}.

(** An annotation the page does not show. *)
Definition gone : Annotation :=
  {| oid := 6; id := "local-3"; bodies := [comment "deleted meanwhile"];
     target := "chars 30-31"; isSelection := false; annotationReadOnly := false |}.

(** The annotation the editor hands over when the draft is confirmed. *)
Definition confirmed : Annotation :=
  {| oid := 8; id := "local-4"; bodies := [comment "kept"];
     target := "chars 20-26"; isSelection := false; annotationReadOnly := false |}.

Definition spanA : Highlighter.Span := {| Highlighter.node := 70; Highlighter.bound := A |}.

Definition spanB : Highlighter.Span := {| Highlighter.node := 71; Highlighter.bound := B |}.

Definition ids (n : nat) : string := "#" +:+ pretty n.

(** A mounted component that shows A and B, joined by R. *)
Definition page (batch : bool) (config : Config) : World :=
  withRelationsLayer
    (RelationsLayer.withRelations [R] (relationsLayer (mount batch config 10 ids)))
    (withHighlighter [spanA; spanB] (mount batch config 10 ids)).

End Sample.

(** ** Evaluation *)

(** Take a world apart into its fields. *)
Ltac world w :=
  let s := fresh "s" in
  let p := fresh "p" in
  let b := fresh "batch" in
  destruct w as [s p b ? ? ? ? ? ? ? ? ? ?]; unfold quiescent in *;
  cbn [state pending batching highlighter selectionHandler relationsLayer noselect
       frames log nextOid nextNode uuid nextUuid] in *;
  subst.

Ltac fields s := destruct s as [? ? ? ? ? ?].

(** Unfold the handlers and the monad, and nothing of the data. *)
Ltac handlers :=
  cbv [run exec handle handleSelect onNormalSelect onHeadlessSelect
       onCreateOrUpdateAnnotation onDeleteAnnotation onCancelAnnotation handleEscape
       closeRelationsEditor onEditRelation onCreateOrUpdateRelation onDeleteRelation
       overrideAnnotationId overrideRelationId addAnnotation set_disableSelect
       removeAnnotation selectAnnotation setMode set_readOnlyProperty
       set_widgetsProperty set_disableEditor clearState onChanged undraft
       animationFrame setState setStateThen commit enqueue commitQueue flushOnce
       flush runCallback runCallbacks runFrameTask updateDependentRelations
       requestAnimationFrame props highlighter_addOrUpdateAnnotation
       highlighter_findAnnotationSpans highlighter_removeAnnotation
       highlighter_overrideId relationsLayer_apply selectionHandler_apply
       selectionHandler_setEnabled selectionHandler_clearSelection
       relationsLayer_resetDrawing relationsLayer_overrideRelationId clone
       toAnnotation emit modify get mbind mret M_bind M_ret
       withState withPending withHighlighter withSelectionHandler withRelationsLayer
       withNoselect withFrames withLog withNextOid withNextNode withNextUuid
       state pending batching highlighter selectionHandler relationsLayer noselect
       frames log nextOid nextNode uuid nextUuid selectedAnnotation selectedDOMElement
       selectedRelation readOnly widgets editorDisabled fst snd app foldl omap
       list_omap].

(** Running the handlers: everything is unfolded but the collaborators,
    the library functions and the notions of the statements. *)
Declare Reduction running :=
  lazy -[Highlighter.findAnnotationSpans Highlighter.addOrUpdateAnnotation
         Highlighter.removeAnnotation Highlighter.overrideId Highlighter.getAllAnnotations
         RelationsLayer.addOrUpdateRelation RelationsLayer.removeRelation
         RelationsLayer.destroyConnectionsFor RelationsLayer.overrideTargetAnnotation
         RelationsLayer.overrideRelationId RelationsLayer.getAllRelations
         isEqual withoutDraft map String.countable
         observed exclusive paired hostCalls steps payloads highlighterWrites emitted
         storedOids detached madeBetween].

Ltac evaluate :=
  match goal with
  | |- ?G => let G' := eval running in G in change G'
  end.

(** Once the control flow of a handler is determined, running it on a world
    given by its fields is a computation: compare the normal forms. *)
Ltac compute_run := vm_compute; reflexivity.

(** ** Basic facts *)

Lemma emitted_intro (w w' : World) (l : list Effect) :
  log w' = rev l ++ log w -> emitted w w' = l.
Proof.
  unfold emitted. intros ->. rewrite length_app, Nat.add_sub.
  rewrite take_app_length. apply rev_involutive.
Qed.

Lemma hostCalls_app (l k : list Effect) :
  hostCalls (l ++ k) = hostCalls l ++ hostCalls k.
Proof. apply List.filter_app. Qed.

Lemma steps_app (l k : list Effect) : steps (l ++ k) = steps l ++ steps k.
Proof. apply List.filter_app. Qed.

Lemma observed_app (l k : list Effect) : observed (l ++ k) = observed l ++ observed k.
Proof. apply omap_app. Qed.

Lemma payloads_app (l k : list Effect) : payloads (l ++ k) = payloads l ++ payloads k.
Proof. apply flat_map_app. Qed.

Lemma exec_seq (m k : M unit) (w : World) : exec (m;; k) w = exec k (exec m w).
Proof. unfold exec, mbind, M_bind. by destruct (m w) as [[] w1]. Qed.

Lemma exec_flush_S (n : nat) (w : World) :
  exec (flush (S n)) w =
  match pending w with
  | [] => w
  | q => exec (flush n) (exec (flushOnce q) w)
  end.
Proof.
  cbn [flush]. unfold exec at 1, mbind at 1, M_bind at 1, get.
  destruct (pending w) as [|q qs] eqn:E; [done|]. apply exec_seq.
Qed.

Lemma flush_quiescent (n : nat) (w : World) : quiescent w -> exec (flush n) w = w.
Proof. intros Hq. destruct n; [done|]. rewrite exec_flush_S. by rewrite Hq. Qed.

Lemma run_exec (ev : Event) (w : World) : run ev w = exec (flush 2) (exec (handle ev) w).
Proof. apply exec_seq. Qed.

(** *** The selection handler is touched by no callback and no commit *)

Lemma runCallback_selectionHandler (cb : Callback) (w : World) :
  selectionHandler (exec (runCallback cb) w) = selectionHandler w.
Proof.
  destruct cb as [sel el|orig fid|oi fi|[a|]]; world w; try by destruct batch.
  unfold runCallback, highlighter_findAnnotationSpans, exec, mbind, M_bind, get.
  cbn [highlighter fst snd]. destruct (Highlighter.findAnnotationSpans _ _); [done|].
  by destruct batch.
Qed.

Lemma runCallbacks_selectionHandler (cbs : list Callback) (w : World) :
  selectionHandler (exec (runCallbacks cbs) w) = selectionHandler w.
Proof.
  revert w. induction cbs as [|cb cbs IH]; intros w; [done|].
  cbn [runCallbacks]. rewrite exec_seq, IH. apply runCallback_selectionHandler.
Qed.

Lemma flush_selectionHandler (fuel : nat) (w : World) :
  selectionHandler (exec (flush fuel) w) = selectionHandler w.
Proof.
  revert w. induction fuel as [|n IH]; intros w; [done|].
  rewrite exec_flush_S. destruct (pending w) as [|q qs]; [done|].
  rewrite IH. unfold flushOnce. rewrite exec_seq, runCallbacks_selectionHandler.
  by world w.
Qed.

(** ** Re-enabling the selection handler *)

Lemma handle_reenables (ev : Event) (w : World) :
  reenables ev w ->
  SelectionHandler.enabled (selectionHandler (exec (handle ev) w)) = true.
Proof.
  intros H. destruct ev as [[a|] el|k| | | | | | | | | | | | | | |a| |mode| | | | |];
    cbn in H; try done; world w.
  - fields s. by destruct editorDisabled0, batch.
  - by destruct batch.
  - by destruct batch.
  - by destruct batch.
  - destruct H as (sel & Hs & He). 
    fields s. cbn in Hs. subst. handlers. rewrite He. by destruct batch.
  - unfold handle, setMode. rewrite bool_decide_eq_false_2 by done. by destruct batch.
Qed.

(** C10.  Every event whose handler goes through [clearState] (a select
    event without a selection, annotation delete, annotation cancel and
    Escape, [removeAnnotation] of the selected annotation) and [setMode]
    with a mode other than RELATIONS leaves the selection handler enabled,
    whatever its flag was before; so [disableSelect] reads false
    afterwards, although the host's [disableSelect = true] had made it
    read true. *)
Theorem clearState_reenables_selection (ev : Event) (w : World) :
  reenables ev w ->
  SelectionHandler.enabled (selectionHandler (run ev w)) = true
  /\ get_disableSelect (run ev w) = false
  /\ get_disableSelect (run (SetDisableSelect true) w) = true.
Proof.
  intros H. unfold get_disableSelect. rewrite !run_exec, !flush_selectionHandler.
  rewrite (handle_reenables ev w H). repeat split.
Qed.

Lemma clearState_reenables_selection_witness :
  let w := run (SetDisableSelect true) (Sample.page true Sample.normal) in
  reenables (KeyDown 27) w
  /\ SelectionHandler.enabled (selectionHandler w) = false
  /\ SelectionHandler.enabled (selectionHandler (run (KeyDown 27) w)) = true
  /\ get_disableSelect (run (KeyDown 27) w) = false
  /\ get_disableSelect (run (SetDisableSelect true) w) = true.
Proof.
  split; [reflexivity|]. split; [reflexivity|].
  apply (clearState_reenables_selection (KeyDown 27)
           (run (SetDisableSelect true) (Sample.page true Sample.normal))).
  reflexivity.
Defined.

(** ** Facts about the collaborators *)

Lemma touches_false (i : string) (r : Relation) :
  RelationsLayer.touches i r = false <-> from r <> i /\ to r <> i.
Proof.
  unfold RelationsLayer.touches. rewrite orb_false_iff, !bool_decide_eq_false. tauto.
Qed.

Lemma destroyConnectionsFor_none_left (a : Annotation) (l : RelationsLayer.t) :
  Forall (fun r => from r <> id a /\ to r <> id a)
    (RelationsLayer.relations (RelationsLayer.destroyConnectionsFor a l)).
Proof.
  apply Forall_forall. intros r Hr. apply list_elem_of_In, filter_In in Hr as [_ Hr].
  apply touches_false. by apply negb_true_iff.
Qed.

Lemma destroyConnectionsFor_keeps (a : Annotation) (l : RelationsLayer.t) (r : Relation) :
  r ∈ RelationsLayer.relations l -> from r <> id a -> to r <> id a ->
  r ∈ RelationsLayer.relations (RelationsLayer.destroyConnectionsFor a l).
Proof.
  intros Hr Hf Ht. apply list_elem_of_In, filter_In. split; [by apply list_elem_of_In|].
  apply negb_true_iff, touches_false. done.
Qed.

Lemma removeAnnotation_gone (a : Annotation) (h : Highlighter.t) :
  Highlighter.mem (id a) (Highlighter.removeAnnotation a h) = false.
Proof.
  unfold Highlighter.mem, Highlighter.removeAnnotation.
  induction h as [|s h IH]; cbn; [done|].
  destruct (Highlighter.hasId (id a) s) eqn:E; cbn; [done|]. by rewrite E.
Qed.

Lemma removeAnnotation_absent (a : Annotation) (h : Highlighter.t) :
  Highlighter.mem (id a) h = false -> Highlighter.removeAnnotation a h = h.
Proof.
  unfold Highlighter.mem, Highlighter.removeAnnotation.
  induction h as [|s h IH]; cbn; [done|].
  intros [E1 E2]%orb_false_iff. rewrite E1. cbn. by rewrite IH.
Qed.

(** ** Deleting an annotation *)

Lemma run_delete (a : Annotation) (w : World) :
  quiescent w ->
  let w' := run (EditorDeleted a) w in
  let cleared := merge (selecting None None) (state w) in
  emitted w w' =
    (if batching w
     then [EDestroyConnectionsFor a; ESetState (selecting None None);
           ESelectionEnabled true; EClearSelection; ERemoveAnnotation a;
           EHost onAnnotationDeleted [AAnnotation a]; ECommit cleared]
     else [EDestroyConnectionsFor a; ESetState (selecting None None); ECommit cleared;
           ESelectionEnabled true; EClearSelection; ERemoveAnnotation a;
           EHost onAnnotationDeleted [AAnnotation a]])
  /\ state w' = cleared
  /\ relationsLayer w' = RelationsLayer.destroyConnectionsFor a (relationsLayer w)
  /\ selectionHandler w' =
       SelectionHandler.clearSelection (SelectionHandler.setEnabled true (selectionHandler w))
  /\ highlighter w' = Highlighter.removeAnnotation a (highlighter w).
Proof.
  intros Hq. world w.
  destruct batch; (split; [apply emitted_intro|repeat split]); compute_run.
Qed.

(** C4, as the code has it.  Delete makes its calls in the order: destroy
    the relations that have the annotation as an endpoint, [setState] with
    the cleared selection (and enable the selection handler), clear the
    pending raw selection, remove the annotation from the Highlight
    Engine, notify the host; so the relations go before the annotation.
    The cleared selection is committed before the host is notified only
    when React applies [setState] at once; when React batches the
    handler's updates, the host is notified while the state still is what
    it was, and the cleared state is committed after the handler.
    Afterwards no relation with the annotation as an endpoint is left, the
    others are all kept, the selection is cleared and the annotation is
    gone. *)
Theorem delete_cascades_in_order (a : Annotation) (w : World) :
  quiescent w ->
  let w' := run (EditorDeleted a) w in
  let cleared := merge (selecting None None) (state w) in
  steps (emitted w w') =
    [EDestroyConnectionsFor a; ESetState (selecting None None); ESelectionEnabled true;
     EClearSelection; ERemoveAnnotation a; EHost onAnnotationDeleted [AAnnotation a]]
  /\ emitted w w' =
       (if batching w
        then [EDestroyConnectionsFor a; ESetState (selecting None None);
              ESelectionEnabled true; EClearSelection; ERemoveAnnotation a;
              EHost onAnnotationDeleted [AAnnotation a]; ECommit cleared]
        else [EDestroyConnectionsFor a; ESetState (selecting None None); ECommit cleared;
              ESelectionEnabled true; EClearSelection; ERemoveAnnotation a;
              EHost onAnnotationDeleted [AAnnotation a]])
  /\ stateAtHost w w' = (if batching w then state w else cleared)
  /\ Forall (fun r => from r <> id a /\ to r <> id a)
       (RelationsLayer.relations (relationsLayer w'))
  /\ (forall r, r ∈ RelationsLayer.relations (relationsLayer w) ->
        from r <> id a -> to r <> id a ->
        r ∈ RelationsLayer.relations (relationsLayer w'))
  /\ selectedAnnotation (state w') = None
  /\ selectedDOMElement (state w') = None
  /\ SelectionHandler.rawSelection (selectionHandler w') = false
  /\ Highlighter.mem (id a) (highlighter w') = false.
Proof.
  intros Hq w' cleared. destruct (run_delete a w Hq) as (Hlog & Hst & Hrl & Hsh & Hhl).
  fold w' cleared in Hlog, Hst, Hrl, Hsh, Hhl.
  unfold stateAtHost. rewrite Hlog, Hst, Hrl, Hsh, Hhl. split_and!; try done.
  - by destruct (batching w).
  - by destruct (batching w).
  - apply destroyConnectionsFor_none_left.
  - apply destroyConnectionsFor_keeps.
  - apply removeAnnotation_gone.
Qed.

Lemma delete_cascades_in_order_witness :
  let w := run (Select (Some Sample.A) (Some 70)) (Sample.page true Sample.normal) in
  let w' := run (EditorDeleted Sample.A) w in
  quiescent w
  /\ steps (emitted w w') =
       [EDestroyConnectionsFor Sample.A; ESetState (selecting None None);
        ESelectionEnabled true; EClearSelection; ERemoveAnnotation Sample.A;
        EHost onAnnotationDeleted [AAnnotation Sample.A]]
  /\ stateAtHost w w' = state w
  /\ RelationsLayer.relations (relationsLayer w) = [Sample.R]
  /\ RelationsLayer.relations (relationsLayer w') = []
  /\ selectedAnnotation (state w') = None
  /\ Highlighter.mem (id Sample.A) (highlighter w') = false.
Proof.
  split; [reflexivity|].
  pose proof (delete_cascades_in_order Sample.A
                (run (Select (Some Sample.A) (Some 70)) (Sample.page true Sample.normal))
                eq_refl) as (Hsteps & _ & Hat & _ & _ & Hsel & _ & _ & Hmem).
  split; [exact Hsteps|].
  split; [rewrite Hat; vm_compute; reflexivity|]. split; [reflexivity|].
  split; [reflexivity|]. split; [exact Hsel|exact Hmem].
Defined.

(** C4, as stated, fails when React batches the updates of the handler,
    as it does for a handler that runs on the editor's button: the
    annotation editor is open on A, A is deleted, and when the host
    receives [onAnnotationDeleted] no state has been committed yet: the
    state still has A selected and the editor is still rendered.  The
    cleared state is committed after the notification. *)
Lemma host_notified_before_selection_is_cleared :
  let w := run (Select (Some Sample.A) (Some 70)) (Sample.page true Sample.normal) in
  let w' := run (EditorDeleted Sample.A) w in
  quiescent w
  /\ batching w = true
  /\ emitted w w' =
       [EDestroyConnectionsFor Sample.A; ESetState (selecting None None);
        ESelectionEnabled true; EClearSelection; ERemoveAnnotation Sample.A;
        EHost onAnnotationDeleted [AAnnotation Sample.A];
        ECommit (merge (selecting None None) (state w))]
  /\ observed (untilHost (emitted w w')) = []
  /\ selectedAnnotation (stateAtHost w w') = Some Sample.A
  /\ selectedDOMElement (stateAtHost w w') = Some 70
  /\ is_Some (render (stateAtHost w w')).
Proof. split_and!; try (vm_compute; reflexivity). vm_compute. eauto. Qed.

Lemma run_delete_hostCalls (a : Annotation) (w : World) :
  quiescent w ->
  hostCalls (emitted w (run (EditorDeleted a) w)) = [EHost onAnnotationDeleted [AAnnotation a]].
Proof.
  intros Hq. destruct (run_delete a w Hq) as (-> & _). by destruct (batching w).
Qed.




(** ** Escape *)

Lemma run_cancel (a : option Annotation) (w : World) :
  quiescent w ->
  let w' := run (EditorCancel a) w in
  let cleared := merge (selecting None None) (state w) in
  emitted w w' =
    (if batching w
     then [ESetState (selecting None None); ESelectionEnabled true; EClearSelection;
           EHost onCancelSelected [argOfAnnotation a]; ECommit cleared]
     else [ESetState (selecting None None); ECommit cleared; ESelectionEnabled true;
           EClearSelection; EHost onCancelSelected [argOfAnnotation a]])
  /\ state w' = cleared
  /\ relationsLayer w' = relationsLayer w
  /\ highlighter w' = highlighter w
  /\ selectionHandler w' =
       SelectionHandler.clearSelection (SelectionHandler.setEnabled true (selectionHandler w)).
Proof.
  intros Hq. world w.
  destruct batch; (split; [apply emitted_intro|repeat split]); compute_run.
Qed.

Lemma run_other_key (k : nat) (w : World) : quiescent w -> k <> 27 -> run (KeyDown k) w = w.
Proof.
  intros Hq Hk. rewrite run_exec. unfold handle, handleEscape.
  rewrite bool_decide_eq_false_2 by done. by apply flush_quiescent.
Qed.

(** C6, as the code has it.  Escape runs the annotation editor's cancel
    path without an annotation, whether an annotation editor is open or
    not: the annotation selection is cleared, the selection handler is
    enabled, the pending raw selection is dropped, the host is notified
    once through [onCancelSelected] with no annotation, and the relation
    editor and the Relation Layer are left alone.  Another key does
    nothing. *)
Theorem escape_runs_cancel (w : World) :
  quiescent w ->
  let w' := run (KeyDown 27) w in
  w' = run (EditorCancel None) w
  /\ selectedAnnotation (state w') = None
  /\ selectedDOMElement (state w') = None
  /\ selectedRelation (state w') = selectedRelation (state w)
  /\ relationsLayer w' = relationsLayer w
  /\ SelectionHandler.enabled (selectionHandler w') = true
  /\ SelectionHandler.rawSelection (selectionHandler w') = false
  /\ steps (emitted w w') =
       [ESetState (selecting None None); ESelectionEnabled true; EClearSelection;
        EHost onCancelSelected [AUndefined]]
  /\ hostCalls (emitted w w') = [EHost onCancelSelected [AUndefined]]
  /\ (forall k, k <> 27 -> run (KeyDown k) w = w).
Proof.
  intros Hq w'. destruct (run_cancel None w Hq) as (Hlog & Hst & Hrl & _ & Hsh).
  change (run (EditorCancel None) w) with w' in *.
  rewrite Hlog, Hst, Hrl, Hsh. split_and!; try done.
  - by destruct (batching w).
  - by destruct (batching w).
  - intros k Hk. by apply run_other_key.
Qed.

Lemma escape_runs_cancel_witness :
  let w := run (CreateRelation Sample.R)
             (run (SetMode "RELATIONS") (Sample.page true Sample.normal)) in
  let w' := run (KeyDown 27) w in
  quiescent w
  /\ w' = run (EditorCancel None) w
  /\ selectedAnnotation (state w') = None
  /\ selectedDOMElement (state w') = None
  /\ selectedRelation (state w') = selectedRelation (state w)
  /\ relationsLayer w' = relationsLayer w
  /\ SelectionHandler.enabled (selectionHandler w') = true
  /\ SelectionHandler.rawSelection (selectionHandler w') = false
  /\ steps (emitted w w') =
       [ESetState (selecting None None); ESelectionEnabled true; EClearSelection;
        EHost onCancelSelected [AUndefined]]
  /\ hostCalls (emitted w w') = [EHost onCancelSelected [AUndefined]]
  /\ (forall k, k <> 27 -> run (KeyDown k) w = w).
Proof.
  split; [reflexivity|].
  apply (escape_runs_cancel
           (run (CreateRelation Sample.R)
              (run (SetMode "RELATIONS") (Sample.page true Sample.normal)))).
  reflexivity.
Defined.

(** C6, as stated, fails: in RELATIONS mode no annotation editor is open
    and the selection handler is disabled; Escape enables it and the host
    receives [onCancelSelected]. *)
Lemma escape_without_editor_has_effects :
  let w := run (SetMode "RELATIONS") (Sample.page true Sample.normal) in
  let w' := run (KeyDown 27) w in
  quiescent w
  /\ selectedAnnotation (state w) = None
  /\ SelectionHandler.enabled (selectionHandler w) = false
  /\ SelectionHandler.enabled (selectionHandler w') = true
  /\ hostCalls (log w) = []
  /\ hostCalls (log w') = [EHost onCancelSelected [AUndefined]].
Proof. vm_compute. repeat split. Qed.

(** ** Animation frames *)

Lemma exec_runFrameTasks (ts : list FrameTask) (w : World) :
  exec (runFrameTasks ts) w =
  withLog (rev (map frameEffect ts) ++ log w)
    (withRelationsLayer (foldl frameAction (relationsLayer w) ts) w).
Proof.
  revert w. induction ts as [|[o u] ts IH]; intros w.
  - by world w.
  - cbn [runFrameTasks]. rewrite exec_seq, IH. world w.
    cbn [map rev]. rewrite <- app_assoc. reflexivity.
Qed.

Lemma run_animationFrame (w : World) :
  quiescent w ->
  run AnimationFrame w =
  withLog (rev (map frameEffect (frames w)) ++ log w)
    (withRelationsLayer (foldl frameAction (relationsLayer w) (frames w))
       (withFrames [] w)).
Proof.
  intros Hq. rewrite run_exec.
  assert (exec (handle AnimationFrame) w
          = exec (runFrameTasks (frames w)) (withFrames [] w)) as -> by reflexivity.
  rewrite exec_runFrameTasks. rewrite flush_quiescent; [|by world w]. by world w.
Qed.

(** ** Every event is handled to the end *)

Lemma run_quiescent (ev : Event) (w : World) : quiescent w -> quiescent (run ev w).
Proof.
  intros Hq. destruct ev.
  - (* Select *)
    world w. fields s. destruct editorDisabled0, selection as [sel|], batch;
      try (fields sel; destruct isSelection0); compute_run.
  - (* KeyDown *)
    destruct (decide (which = 27)) as [->|Hk].
    + world w. destruct batch; compute_run.
    + by rewrite run_other_key.
  - world w. destruct batch; compute_run.
  - world w. destruct previous, batch; compute_run.
  - world w. destruct previous, batch; compute_run.
  - world w. destruct batch; compute_run.
  - world w. destruct batch; compute_run.
  - world w. destruct batch; compute_run.
  - world w. destruct batch; compute_run.
  - world w. destruct batch; compute_run.
  - (* RelationConfirmed *)
    world w. destruct previous as [[? ? [|b bs] ? ? ?] ? ?], batch; compute_run.
  - world w. destruct batch; compute_run.
  - world w. destruct batch; compute_run.
  - (* OverrideAnnotationId *)
    world w. fields s.
    destruct selectedAnnotation0, selectedRelation0, batch; compute_run.
  - (* OverrideRelationId *)
    world w. fields s. destruct selectedRelation0, batch; compute_run.
  - world w. destruct batch; compute_run.
  - (* RemoveAnnotation *)
    world w. fields s. unfold quiescent.
    destruct selectedAnnotation0 as [sel|]; [destruct (isEqual a sel) eqn:E|];
      handlers; rewrite ?E; by destruct batch.
  - (* SelectAnnotation *)
    world w. unfold quiescent.
    destruct arg as [a|]; [destruct (Highlighter.findAnnotationSpans a highlighter0) eqn:E|];
      destruct batch; handlers; rewrite ?E; reflexivity.
  - (* SetMode *)
    destruct (decide (mode = "RELATIONS")) as [->|Hm]; world w; destruct batch.
    1,2: compute_run.
    all: unfold quiescent, run, handle, setMode; rewrite bool_decide_eq_false_2 by done;
      reflexivity.
  - world w. destruct batch; compute_run.
  - world w. destruct batch; compute_run.
  - world w. destruct batch; compute_run.
  - world w. destruct batch; compute_run.
  - (* AnimationFrame *)
    rewrite run_animationFrame by done. by world w.
Qed.

(** ** Confirming a relation *)

Lemma replace_or_append_mem {A} (key : A -> bool) (r : A) (l : list A) :
  r ∈ (if existsb key l then map (fun x => if key x then r else x) l else l ++ [r]).
Proof.
  destruct (existsb key l) eqn:E.
  - apply existsb_exists in E as (x & Hx & Hk). apply list_elem_of_In, in_map_iff.
    exists x. by rewrite Hk.
  - apply list_elem_of_In, in_app_iff. right. by left.
Qed.

Lemma replace_or_append_others {A} (key : A -> bool) (r : A) (l : list A) (x : A) :
  x ∈ (if existsb key l then map (fun x => if key x then r else x) l else l ++ [r]) ->
  x = r \/ (x ∈ l /\ key x = false).
Proof.
  destruct (existsb key l) eqn:E.
  - intros (y & Hy & Hin)%list_elem_of_In%in_map_iff.
    destruct (key y) eqn:Hk; [by left|]. subst x. right. by rewrite list_elem_of_In.
  - intros [Hin|Hin]%list_elem_of_In%in_app_iff.
    + right. split; [by apply list_elem_of_In|].
      destruct (key x) eqn:Hk; [|done]. rewrite <- E. symmetry. apply existsb_exists. eauto.
    + left. destruct Hin as [<-|[]]. done.
Qed.

Lemma addOrUpdateRelation_mem (r previous : Relation) (l : RelationsLayer.t) :
  r ∈ RelationsLayer.relations (RelationsLayer.addOrUpdateRelation r previous l).
Proof. apply replace_or_append_mem. Qed.

Lemma addOrUpdateRelation_others (r previous : Relation) (l : RelationsLayer.t) (x : Relation) :
  x ∈ RelationsLayer.relations (RelationsLayer.addOrUpdateRelation r previous l) ->
  x = r
  \/ (x ∈ RelationsLayer.relations l
      /\ RelationsLayer.relationId x <> RelationsLayer.relationId r
      /\ RelationsLayer.relationId x <> RelationsLayer.relationId previous).
Proof.
  intros [->|[Hin Hk]]%replace_or_append_others; [by left|right].
  apply orb_false_iff in Hk as [H1 H2]. unfold RelationsLayer.hasId in *.
  by apply bool_decide_eq_false in H1, H2.
Qed.

Lemma run_relationConfirmed (r previous : Relation) (w : World) :
  quiescent w ->
  let w' := run (RelationConfirmed r previous) w in
  let c := cloneAt (nextOid w) noProps (annotation r) in
  let p := cloneAt (S (nextOid w)) noProps (annotation previous) in
  let notification :=
    if bool_decide (length (bodies (annotation previous)) = 0)
    then EHost onAnnotationCreated [AAnnotation c; AOverrideRelationId (id (annotation r))]
    else EHost onAnnotationUpdated [AAnnotation c; AAnnotation p] in
  let closed := merge (selectingRelation None) (state w) in
  emitted w w' =
    (if batching w
     then [EAddOrUpdateRelation r previous; ESetState (selectingRelation None);
           EResetDrawing; notification; ECommit closed]
     else [EAddOrUpdateRelation r previous; ESetState (selectingRelation None);
           ECommit closed; EResetDrawing; notification])
  /\ state w' = closed
  /\ relationsLayer w' =
       RelationsLayer.resetDrawing
         (RelationsLayer.addOrUpdateRelation r previous (relationsLayer w))
  /\ highlighter w' = highlighter w
  /\ (forall forcedId,
        relationsLayer (run (OverrideRelationId (id (annotation r)) forcedId) w') =
        RelationsLayer.overrideRelationId (id (annotation r)) forcedId (relationsLayer w')).
Proof.
  intros Hq. world w.
  destruct previous as [[? ? [|b bs] ? ? ?] ? ?], batch;
    (split; [apply emitted_intro|split_and!]); try intros forcedId; compute_run.
Qed.

(** ** Headless selection *)

Lemma addOrUpdateAnnotation_mem (n : Element) (a : Annotation)
    (previous : option Annotation) (h : Highlighter.t) :
  a ∈ Highlighter.getAllAnnotations (Highlighter.addOrUpdateAnnotation n a previous h).
Proof.
  unfold Highlighter.getAllAnnotations, Highlighter.addOrUpdateAnnotation.
  cbv zeta. set (key := fun s => _ || _).
  destruct (existsb key h) eqn:E.
  - apply existsb_exists in E as (x & Hx & Hk). apply list_elem_of_In, in_map_iff.
    exists (Highlighter.rebind key a x). split; [unfold Highlighter.rebind; by rewrite Hk|].
    apply in_map_iff. eauto.
  - rewrite map_app. apply list_elem_of_In, in_app_iff. right. by left.
Qed.

Lemma withoutDraft_spec (bs : list Body) :
  Forall (fun b : Body => b !! "draft" = None) (map withoutDraft bs)
  /\ Forall2 (fun b b' : Body => forall k, k <> "draft" -> b' !! k = b !! k)
       bs (map withoutDraft bs).
Proof.
  induction bs as [|b bs [IH1 IH2]]; cbn; [by split|]. split; constructor; try done.
  - apply lookup_delete_eq.
  - intros k Hk. by apply lookup_delete_ne.
Qed.

Lemma run_headless_draft (selection : Annotation) (element : option Element) (w : World) :
  quiescent w ->
  editorDisabled (state w) = true ->
  isSelection selection = true ->
  let w' := run (Select (Some selection) element) w in
  let c := headlessCreated w selection in
  let h := Highlighter.addOrUpdateAnnotation (nextNode w) c None (highlighter w) in
  let span := Highlighter.node <$> head (Highlighter.findAnnotationSpans c h) in
  let cleared := merge (selecting None None) (state w) in
  emitted w w' =
    (if batching w
     then [ESetState (selecting None None); EAddOrUpdateAnnotation c None;
           EHost onAnnotationCreated [AAnnotation c; ANull];
           ESetState (selecting (Some c) span);
           ECommit (merge (selecting (Some c) span) cleared);
           ESetState (selecting (Some selection) element);
           ECommit (merge (selecting (Some selection) element) cleared)]
     else [ESetState (selecting None None); ECommit cleared;
           ESetState (selecting (Some selection) element);
           ECommit (merge (selecting (Some selection) element) cleared);
           EAddOrUpdateAnnotation c None;
           EHost onAnnotationCreated [AAnnotation c; ANull];
           ESetState (selecting (Some c) span);
           ECommit (merge (selecting (Some c) span) cleared)])
  /\ highlighter w' = h
  /\ state w' =
       (if batching w then merge (selecting (Some selection) element) cleared
        else merge (selecting (Some c) span) cleared).
Proof.
  intros Hq Hd Hs. world w. fields s. fields selection. cbn in Hd, Hs. subst.
  destruct batch; (split; [apply emitted_intro|split_and!]); reflexivity.
Qed.

Lemma open_disabled (s : State) : editorDisabled s = true -> open s = false.
Proof. unfold open. intros ->. apply andb_false_r. Qed.

Lemma render_disabled (s : State) : editorDisabled s = true -> render s = None.
Proof. unfold render. intros H. by rewrite open_disabled. Qed.




(** ** Overriding an annotation's id *)

Lemma overrideId_present (o : nat) (i j : string) (h : Highlighter.t) (s : Highlighter.Span) :
  head (List.filter (Highlighter.hasId i) h) = Some s ->
  (Highlighter.overrideId o i j h).1
  = Some (cloneAt o {| props_id := Some j; props_body := None |} (Highlighter.bound s)).
Proof.
  unfold Highlighter.overrideId. destruct (List.filter _ h) as [|x l]; [done|].
  intros [= ->]. done.
Qed.

Lemma overrideId_absent (o : nat) (i j : string) (h : Highlighter.t) :
  Highlighter.mem i h = false -> Highlighter.overrideId o i j h = (None, h).
Proof.
  unfold Highlighter.overrideId, Highlighter.mem. intros H.
  assert (List.filter (Highlighter.hasId i) h = []) as ->; [|done].
  induction h as [|s h IH]; [done|]. cbn in *.
  apply orb_false_iff in H as [-> H]. by apply IH.
Qed.

Lemma retargetEnd_other (i j e : string) : j <> i -> RelationsLayer.retargetEnd i j e <> i.
Proof. unfold RelationsLayer.retargetEnd. intros H. by case_bool_decide. Qed.

Lemma retarget_none_left (i j : string) (l : list Relation) :
  j <> i ->
  Forall (fun r => from r <> i /\ to r <> i) (map (RelationsLayer.retarget i j) l).
Proof.
  intros H. induction l as [|r l IH]; constructor; [|done].
  split; by apply retargetEnd_other.
Qed.

Lemma retarget_spec (i j : string) (r : Relation) :
  (from r = i -> from (RelationsLayer.retarget i j r) = j)
  /\ (to r = i -> to (RelationsLayer.retarget i j r) = j)
  /\ (from r <> i -> from (RelationsLayer.retarget i j r) = from r)
  /\ (to r <> i -> to (RelationsLayer.retarget i j r) = to r)
  /\ annotation (RelationsLayer.retarget i j r) = annotation r.
Proof.
  unfold RelationsLayer.retarget, RelationsLayer.retargetEnd. cbn.
  split_and!; try done; intros H; by case_bool_decide.
Qed.

Lemma run_overrideAnnotationId (original : Annotation) (forcedId : string) (w : World) :
  quiescent w ->
  let w1 := run (OverrideAnnotationId original forcedId) w in
  let swap := Highlighter.overrideId (nextOid w) (id original) forcedId (highlighter w) in
  let editing :=
    bool_decide (is_Some (selectedAnnotation (state w)))
    || bool_decide (is_Some (selectedRelation (state w))) in
  emitted w w1 =
    (if editing
     then [EResetDrawing; ESetState closingEditors;
           ECommit (merge closingEditors (state w))]
     else [])
    ++ [EOverrideId (id original) forcedId;
        ERequestAnimationFrame (FrOverrideTarget original swap.1)]
  /\ state w1 = (if editing then merge closingEditors (state w) else state w)
  /\ relationsLayer w1 =
       (if editing then RelationsLayer.resetDrawing (relationsLayer w) else relationsLayer w)
  /\ highlighter w1 = swap.2
  /\ frames w1 = frames w ++ [FrOverrideTarget original swap.1].
Proof.
  intros Hq. world w. fields s.
  destruct selectedAnnotation0, selectedRelation0, batch;
    (split; [apply emitted_intro|split_and!]); reflexivity.
Qed.

(** C2, as the code has it.  [overrideAnnotationId(original)(forcedId)],
    called between two events (no state update of a handler is pending):
    when an editor is open, relation drawing is reset and
    [selectedAnnotation] and [selectedRelation] are set to null and
    committed before the Highlight Engine swaps the id; the Relation Layer
    is not touched during the call, the propagation runs in the next
    animation frame, after the swap.  When the Highlight Engine holds the
    annotation, it holds it under the forced id afterwards, and once the
    frame has run every endpoint that was the old id is the forced id (the
    other endpoints are as they were), so that no relation refers to the
    old id, unless the forced id is the old id.  When it does not hold the
    annotation, neither the swap nor the propagation changes anything, so
    a relation that still refers to the old id keeps doing so. *)
Theorem overrideAnnotationId_protocol (original : Annotation) (forcedId : string)
    (w : World) :
  quiescent w ->
  let w1 := run (OverrideAnnotationId original forcedId) w in
  let w2 := run AnimationFrame w1 in
  let swapped :=
    (Highlighter.overrideId (nextOid w) (id original) forcedId (highlighter w)).1 in
  let editing :=
    bool_decide (is_Some (selectedAnnotation (state w)))
    || bool_decide (is_Some (selectedRelation (state w))) in
  let before :=
    RelationsLayer.relations (foldl frameAction (relationsLayer w1) (frames w)) in
  emitted w w1 =
    (if editing
     then [EResetDrawing; ESetState closingEditors;
           ECommit (merge closingEditors (state w))]
     else [])
    ++ [EOverrideId (id original) forcedId;
        ERequestAnimationFrame (FrOverrideTarget original swapped)]
  /\ (editing = true ->
      selectedAnnotation (merge closingEditors (state w)) = None
      /\ selectedRelation (merge closingEditors (state w)) = None
      /\ RelationsLayer.inProgress (relationsLayer w1) = false)
  /\ selectedAnnotation (state w1) = None
  /\ selectedRelation (state w1) = None
  /\ RelationsLayer.relations (relationsLayer w1) = RelationsLayer.relations (relationsLayer w)
  /\ emitted w1 w2 =
       map frameEffect (frames w) ++ [EOverrideTargetAnnotation original swapped]
  /\ (forall s,
        head (Highlighter.findAnnotationSpans original (highlighter w)) = Some s ->
        let updated :=
          cloneAt (nextOid w) {| props_id := Some forcedId; props_body := None |}
            (Highlighter.bound s) in
        swapped = Some updated
        /\ id updated = forcedId
        /\ updated ∈ Highlighter.getAllAnnotations (highlighter w2)
        /\ RelationsLayer.relations (relationsLayer w2)
           = map (RelationsLayer.retarget (id original) forcedId) before
        /\ (forcedId <> id original ->
            Forall (fun r => from r <> id original /\ to r <> id original)
              (RelationsLayer.relations (relationsLayer w2))))
  /\ (Highlighter.mem (id original) (highlighter w) = false ->
      swapped = None
      /\ highlighter w2 = highlighter w
      /\ RelationsLayer.relations (relationsLayer w2) = before).
Proof.
  intros Hq w1 w2 swapped editing before.
  destruct (run_overrideAnnotationId original forcedId w Hq) as (Hlog & Hst & Hrl & Hhl & Hfr).
  fold w1 swapped editing in Hlog, Hst, Hrl, Hhl, Hfr.
  assert (quiescent w1) as Hq1 by by apply run_quiescent.
  pose proof (run_animationFrame w1 Hq1) as Hw2. fold w2 in Hw2.
  assert (relationsLayer w2
          = RelationsLayer.overrideTargetAnnotation original swapped
              (foldl frameAction (relationsLayer w1) (frames w))) as Hrl2.
  { rewrite Hw2, Hfr. cbn. by rewrite foldl_app. }
  split_and!.
  - exact Hlog.
  - intros He. rewrite Hrl, He. done.
  - rewrite Hst. unfold editing.
    destruct (state w) as [[?|] ? [?|] ? ? ?]; done.
  - rewrite Hst. unfold editing.
    destruct (state w) as [[?|] ? [?|] ? ? ?]; done.
  - rewrite Hrl. by destruct editing.
  - apply emitted_intro. rewrite Hw2, Hfr. cbn. by rewrite map_app.
  - intros s Hs updated.
    pose proof (overrideId_present (nextOid w) _ forcedId _ _ Hs) as Hup.
    fold swapped updated in Hup. rewrite Hup in Hrl2. split_and!.
    + exact Hup.
    + done.
    + rewrite Hw2. cbn. rewrite Hhl. unfold Highlighter.overrideId.
      unfold Highlighter.findAnnotationSpans in Hs.
      destruct (List.filter _ (highlighter w)) as [|x l] eqn:E; [done|].
      injection Hs as ->. cbn. fold updated.
      assert (s ∈ highlighter w /\ Highlighter.hasId (id original) s = true) as [Hin Hk].
      { rewrite list_elem_of_In, <- filter_In, E. by left. }
      apply list_elem_of_In, in_map_iff.
      exists (Highlighter.rebind (Highlighter.hasId (id original)) updated s).
      split; [unfold Highlighter.rebind; by rewrite Hk|].
      apply in_map_iff. exists s. by rewrite <- list_elem_of_In.
    + by rewrite Hrl2.
    + intros Hne. rewrite Hrl2. by apply retarget_none_left.
  - intros Hmem.
    assert (swapped = None) as Hnone by (unfold swapped; by rewrite overrideId_absent).
    split_and!; [done| |by rewrite Hrl2, Hnone].
    rewrite Hw2. cbn. rewrite Hhl. by rewrite overrideId_absent.
Qed.

Lemma overrideAnnotationId_protocol_witness :
  let w := run (Select (Some Sample.A) (Some 70)) (Sample.page true Sample.normal) in
  let w1 := run (OverrideAnnotationId Sample.A "srv-9") w in
  let w2 := run AnimationFrame w1 in
  let updated :=
    cloneAt (nextOid w) {| props_id := Some "srv-9"; props_body := None |} Sample.A in
  quiescent w
  /\ selectedAnnotation (state w) = Some Sample.A
  /\ emitted w w1 =
       [EResetDrawing; ESetState closingEditors; ECommit (merge closingEditors (state w));
        EOverrideId "local-1" "srv-9";
        ERequestAnimationFrame (FrOverrideTarget Sample.A (Some updated))]
  /\ emitted w1 w2 = [EOverrideTargetAnnotation Sample.A (Some updated)]
  /\ Highlighter.getAllAnnotations (highlighter w2) = [updated; Sample.B]
  /\ RelationsLayer.relations (relationsLayer w2)
     = [{| annotation := annotation Sample.R; from := "srv-9"; to := "local-2" |}]
  /\ Forall (fun r => from r <> "local-1" /\ to r <> "local-1")
       (RelationsLayer.relations (relationsLayer w2)).
Proof.
  split; [reflexivity|]. split; [reflexivity|].
  pose proof (overrideAnnotationId_protocol Sample.A "srv-9"
                (run (Select (Some Sample.A) (Some 70)) (Sample.page true Sample.normal))
                eq_refl)
    as (Hlog & _ & _ & _ & _ & Hframe & Hknown & _).
  destruct (Hknown Sample.spanA eq_refl) as (_ & _ & _ & _ & Hnone).
  split; [exact Hlog|]. split; [exact Hframe|].
  split; [vm_compute; reflexivity|]. split; [vm_compute; reflexivity|].
  apply Hnone. discriminate.
Defined.

(** The host's callback may do nothing; then [onCreateOrUpdateAnnotation] is
    the method as it was embedded above. *)
Lemma onCreateOrUpdateAnnotation_calling_nothing (method : HostCallback)
    (annotation : Annotation) (previous : option Annotation) (w : World) :
  onCreateOrUpdateAnnotation_calling (fun _ => mret tt) method annotation previous w
  = onCreateOrUpdateAnnotation method annotation previous w.
Proof. destruct w as [? ? [] ? ? ? ? ? ? ? ? ? ?], previous; vm_compute; reflexivity. Qed.

(** C2, as stated, fails, in two ways.  [removeAnnotation] does not
    destroy the relations of the annotation it removes: A is removed, R
    still starts at A's id, and the override of A's id, which the
    Highlight Engine cannot perform any more, leaves R as it is.  And a
    call that comes from inside a host callback is not between two
    events: the editor is open on a draft, its OK runs the create path,
    and the host's [onAnnotationCreated] overrides the id at once; React
    batches the two updates, so the state that is committed before the
    swap has the created annotation selected, and the editor stays open
    on the annotation with the old id. *)
Lemma override_misses_endpoints_and_open_editor :
  let w := run (RemoveAnnotation Sample.A) (Sample.page true Sample.normal) in
  let w2 := run AnimationFrame (run (OverrideAnnotationId Sample.A "srv-9") w) in
  let editing := run (Select (Some Sample.draft) (Some 99)) (Sample.page true Sample.normal) in
  let saved :=
    exec (onCreateOrUpdateAnnotation_calling
            (fun c => overrideAnnotationId c "srv-9") onAnnotationCreated Sample.confirmed None;;
          flush 2) editing in
  let c := cloneAt (nextOid editing) noProps Sample.confirmed in
  let committed :=
    merge (selecting (Some c) (Some (nextNode editing)))
      (merge closingEditors (state editing)) in
  (quiescent w
   /\ from Sample.R = id Sample.A
   /\ RelationsLayer.relations (relationsLayer w) = [Sample.R]
   /\ RelationsLayer.relations (relationsLayer w2) = [Sample.R]
   /\ ~ Forall (fun r => from r <> id Sample.A /\ to r <> id Sample.A)
          (RelationsLayer.relations (relationsLayer w2)))
  /\ (quiescent editing
      /\ selectedAnnotation (state editing) = Some Sample.draft
      /\ emitted editing saved
         = [EAddOrUpdateAnnotation c None;
            EHost onAnnotationCreated [AAnnotation c; ANull];
            EResetDrawing; ESetState closingEditors;
            ESetState (selecting (Some c) (Some (nextNode editing)));
            ECommit committed;
            EOverrideId "local-4" "srv-9";
            ERequestAnimationFrame
              (FrOverrideTarget c
                 (Some (cloneAt (S (nextOid editing))
                          {| props_id := Some "srv-9"; props_body := None |} c)))]
      /\ selectedAnnotation committed = Some c
      /\ selectedAnnotation (state saved) = Some c
      /\ id c = "local-4"
      /\ Highlighter.mem "local-4" (highlighter saved) = false
      /\ Highlighter.mem "srv-9" (highlighter saved) = true).
Proof.
  split.
  - split_and!; try (vm_compute; reflexivity).
    intros H. vm_compute in H. apply Forall_cons in H as [[H _] _]. by apply H.
  - split_and!; vm_compute; reflexivity.
Qed.

(** An annotation the Highlight Engine does not know: the swap and the
    propagation change neither store. *)
Lemma overrideAnnotationId_unknown (original : Annotation) (forcedId : string) (w : World) :
  quiescent w ->
  Highlighter.mem (id original) (highlighter w) = false ->
  let w1 := run (OverrideAnnotationId original forcedId) w in
  let w2 := run AnimationFrame w1 in
  highlighter w2 = highlighter w
  /\ RelationsLayer.relations (relationsLayer w2)
     = RelationsLayer.relations (foldl frameAction (relationsLayer w1) (frames w)).
Proof.
  intros Hq Hmem w1 w2.
  destruct (run_overrideAnnotationId original forcedId w Hq) as (_ & _ & _ & Hhl & Hfr).
  fold w1 in Hhl, Hfr. rewrite overrideId_absent in Hhl, Hfr by done.
  assert (quiescent w1) as Hq1 by by apply run_quiescent.
  pose proof (run_animationFrame w1 Hq1) as Hw2. fold w2 in Hw2.
  rewrite Hw2, Hfr. cbn. split; [done|]. by rewrite foldl_app.
Qed.

(** ** One editor at a time *)

Lemma observed_cons (e : Effect) (l : list Effect) :
  observed (e :: l) =
  match isCommit e with Some s => s :: observed l | None => observed l end.
Proof. unfold observed. cbn. by destruct (isCommit e). Qed.

Lemma observed_frames (ts : list FrameTask) : observed (rev (map frameEffect ts)) = [].
Proof.
  induction ts as [|[o u] ts IH]; [done|].
  cbn [map rev]. by rewrite observed_app, IH.
Qed.

Lemma modal_exclusive (w : World) : modal w -> exclusive (state w).
Proof.
  unfold modal, exclusive. destruct (drawingRelations w); [intros [H _]; by left|by right].
Qed.

Lemma frameAction_drawing (l : RelationsLayer.t) (ts : list FrameTask) :
  RelationsLayer.drawing (foldl frameAction l ts) = RelationsLayer.drawing l.
Proof.
  revert l. induction ts as [|[o [u|]] ts IH]; intros l; cbn; [done|by rewrite IH..].
Qed.

(** Take the flags of the two collaborators apart too. *)
Ltac flags w :=
  destruct w as [[sa se sr ro wd hd] queue batch hl [en sro raw] [rels rro dr inp]
                 ns fr lg no nn uu nu];
  unfold inMode, quiescent, modal, drawingRelations in *;
  cbn [state pending batching highlighter selectionHandler relationsLayer noselect
       frames log nextOid nextNode uuid nextUuid selectedAnnotation selectedRelation
       RelationsLayer.drawing SelectionHandler.enabled] in *.

Ltac one_editor :=
  first [ left; reflexivity | right; reflexivity | assumption ].

Ltac keep_mode :=
  evaluate; split;
  [ try split; first [reflexivity | assumption]
  | rewrite ?observed_cons; cbn [isCommit];
    repeat (apply Forall_cons; split;
            [unfold exclusive; cbn [selectedAnnotation selectedRelation]; one_editor|]);
    assumption ].

Lemma run_inMode (ev : Event) (w : World) :
  inMode w -> respectsMode ev w -> inMode (run ev w).
Proof.
  intros (Hq & Hm & Hobs) Hok. split; [by apply run_quiescent|].
  destruct ev.
  - (* Select *)
    flags w. cbn in Hok. subst. destruct dr; [by destruct Hm|]. subst.
    destruct selection as [sel|].
    + destruct sel as [? ? ? ? draft ?]. destruct hd, draft, batch; keep_mode.
    + destruct hd, batch; keep_mode.
  - (* KeyDown *)
    destruct (decide (which = 27)) as [->|Hk]; [|by rewrite run_other_key].
    flags w. cbn in Hok. rewrite Hok in * by done. subst. destruct batch; keep_mode.
  - flags w. subst. destruct dr; [destruct Hm as [-> _]|subst]; destruct batch; keep_mode.
  - (* EditorCreated *)
    flags w. cbn in Hok. subst. destruct Hok as [x ->].
    destruct dr; [by destruct Hm|]. subst. destruct batch, previous; keep_mode.
  - (* EditorUpdated *)
    flags w. cbn in Hok. subst. destruct Hok as [x ->].
    destruct dr; [by destruct Hm|]. subst. destruct batch, previous; keep_mode.
  - (* EditorDeleted *)
    flags w. cbn in Hok. subst. destruct Hok as [x ->].
    destruct dr; [by destruct Hm|]. subst. destruct batch; keep_mode.
  - (* EditorCancel *)
    flags w. cbn in Hok. subst. destruct Hok as [x ->].
    destruct dr; [by destruct Hm|]. subst. destruct batch; keep_mode.
  - (* CreateRelation *)
    flags w. cbn in Hok. subst. destruct Hm as [-> ->]. destruct batch; keep_mode.
  - (* SelectRelation *)
    flags w. cbn in Hok. subst. destruct Hm as [-> ->]. destruct batch; keep_mode.
  - (* CancelDrawing *)
    flags w. subst. destruct dr; [destruct Hm as [-> ->]|subst]; destruct batch; keep_mode.
  - (* RelationConfirmed *)
    flags w. subst.
    destruct dr; [destruct Hm as [-> ->]|subst];
      destruct previous as [[? ? [|b bs] ? ? ?] ? ?], batch; keep_mode.
  - (* RelationDeleted *)
    flags w. subst. destruct dr; [destruct Hm as [-> ->]|subst]; destruct batch; keep_mode.
  - (* RelationCancel *)
    flags w. subst. destruct dr; [destruct Hm as [-> ->]|subst]; destruct batch; keep_mode.
  - (* OverrideAnnotationId *)
    flags w. subst.
    destruct dr; [destruct Hm as [-> ->]; destruct sr, batch|subst; destruct sa, batch];
      keep_mode.
  - (* OverrideRelationId *)
    flags w. subst.
    destruct dr; [destruct Hm as [-> ->]; destruct sr, batch|subst; destruct batch];
      keep_mode.
  - (* AddAnnotation *)
    flags w. subst. destruct dr; [destruct Hm as [-> ->]|subst]; destruct batch; keep_mode.
  - (* RemoveAnnotation *)
    flags w. subst.
    destruct dr; [destruct Hm as [-> ->]; destruct batch; keep_mode|subst].
    destruct sa as [sel|]; [destruct (isEqual a sel) eqn:E|];
      destruct batch; handlers; rewrite ?E; keep_mode.
  - (* SelectAnnotation *)
    flags w. subst.
    destruct arg as [a|].
    + cbn in Hok. subst. cbn in Hm. subst.
      destruct (Highlighter.findAnnotationSpans a hl) eqn:E;
        destruct batch; handlers; rewrite ?E; keep_mode.
    + destruct dr; [destruct Hm as [-> ->]|subst]; destruct batch; keep_mode.
  - (* SetMode *)
    flags w. subst.
    destruct (decide (mode = "RELATIONS")) as [->|Hmode]; unfold run, handle, setMode.
    + rewrite bool_decide_eq_true_2 by done.
      destruct dr; [destruct Hm as [-> ->]|subst]; destruct batch; keep_mode.
    + rewrite bool_decide_eq_false_2 by done.
      destruct dr; [destruct Hm as [-> ->]|subst]; destruct batch; keep_mode.
  - (* SetDisableSelect *)
    flags w. cbn in Hok. subst.
    destruct disable.
    + destruct dr; [destruct Hm as [-> ->]|subst]; destruct batch; keep_mode.
    + rewrite Hok in * by done. cbn in Hm. subst. destruct batch; keep_mode.
  - flags w. subst. destruct dr; [destruct Hm as [-> ->]|subst]; destruct batch; keep_mode.
  - flags w. subst. destruct dr; [destruct Hm as [-> ->]|subst]; destruct batch; keep_mode.
  - flags w. subst. destruct dr; [destruct Hm as [-> ->]|subst]; destruct batch; keep_mode.
  - (* AnimationFrame *)
    rewrite run_animationFrame by done. unfold modal, drawingRelations in *.
    destruct w. cbn in *. rewrite frameAction_drawing. split; [done|].
    by rewrite observed_app, observed_frames.
Qed.

Lemma mount_inMode (batch : bool) (config : Config) (heap : nat) (ids : nat -> string) :
  inMode (mount batch config heap ids).
Proof. split_and!; [done|done|constructor]. Qed.

Lemma reachable_inMode (w : World) : reachableVia respectsMode w -> inMode w.
Proof. induction 1; [apply mount_inMode|by apply run_inMode]. Qed.

Lemma run_editRelation (r : Relation) (w : World) :
  quiescent w ->
  state (run (CreateRelation r) w) = merge (selectingRelation (Some r)) (state w)
  /\ state (run (SelectRelation r) w) = merge (selectingRelation (Some r)) (state w).
Proof. intros Hq. world w. by destruct batch. Qed.

Lemma reachable_runs (evs : list Event) (w : World) :
  reachableVia anyEvent w -> reachableVia anyEvent (runs evs w).
Proof.
  revert w. induction evs as [|ev evs IH]; intros w H; [done|].
  cbn. apply IH. by constructor.
Qed.

Lemma run_setMode_selection (mode : string) (w : World) :
  quiescent w ->
  let w' := run (SetMode mode) w in
  if bool_decide (mode = "RELATIONS")
  then selectedAnnotation (state w') = None
       /\ selectedDOMElement (state w') = None
       /\ SelectionHandler.enabled (selectionHandler w') = false
  else selectedRelation (state w') = None.
Proof.
  intros Hq. world w. cbv zeta.
  destruct (decide (mode = "RELATIONS")) as [->|Hmode].
  - by destruct batch.
  - unfold run, handle, setMode. rewrite !bool_decide_eq_false_2 by done. by destruct batch.
Qed.




(** ** The element goes with the annotation *)

Lemma addOrUpdateAnnotation_found (n : Element) (a : Annotation)
    (previous : option Annotation) (h : Highlighter.t) :
  exists s rest,
    Highlighter.findAnnotationSpans a (Highlighter.addOrUpdateAnnotation n a previous h)
    = s :: rest.
Proof.
  assert (forall l : Highlighter.t,
            (exists x, In x l /\ Highlighter.hasId (id a) x = true) ->
            exists s rest, List.filter (Highlighter.hasId (id a)) l = s :: rest) as Hfound.
  { intros l (x & Hin & Hx).
    destruct (List.filter (Highlighter.hasId (id a)) l) as [|s rest] eqn:E; [|eauto].
    assert (In x []) as []. rewrite <- E. by apply filter_In. }
  unfold Highlighter.findAnnotationSpans, Highlighter.addOrUpdateAnnotation.
  cbv zeta. set (key := fun s => _ || _).
  assert (Highlighter.hasId (id a) {| Highlighter.node := n; Highlighter.bound := a |} = true)
    as Hnew by by apply bool_decide_eq_true_2.
  destruct (existsb key h) eqn:E; apply Hfound.
  - apply existsb_exists in E as (x & Hx & Hk).
    exists (Highlighter.rebind key a x). split; [apply in_map_iff; eauto|].
    unfold Highlighter.rebind. rewrite Hk. by apply bool_decide_eq_true_2.
  - eexists. split; [apply in_app_iff; right; by left|done].
Qed.

Ltac found :=
  match goal with
  | |- context [Highlighter.findAnnotationSpans ?c
                  (Highlighter.addOrUpdateAnnotation ?n ?c ?p ?h)] =>
      let x := fresh "x" in
      let rest := fresh "rest" in
      destruct (addOrUpdateAnnotation_found n c p h) as (x & rest & ->)
  end.

Ltac pair_up :=
  evaluate; try found; unfold paired;
  cbn [selectedAnnotation selectedDOMElement];
  split; intros [? ?]; first [discriminate | eexists; reflexivity].

Lemma run_paired (ev : Event) (w : World) :
  quiescent w -> paired (state w) -> carriesElement ev ->
  isOverrideAnnotationId ev = false ->
  paired (state (run ev w)).
Proof.
  intros Hq Hp Hel Hov. world w. fields s.
  destruct ev; try discriminate Hov.
  - (* Select *)
    destruct selection as [sel|].
    + destruct element as [el|]; [|done]. fields sel.
      destruct editorDisabled0, isSelection0, batch; pair_up.
    + destruct editorDisabled0, batch; pair_up.
  - (* KeyDown *)
    destruct (decide (which = 27)) as [->|Hk]; [|by rewrite run_other_key].
    destruct batch; pair_up.
  - destruct batch; exact Hp.
  - destruct batch, previous; pair_up.
  - destruct batch, previous; pair_up.
  - destruct batch; pair_up.
  - destruct batch; pair_up.
  - destruct batch; exact Hp.
  - destruct batch; exact Hp.
  - destruct batch; exact Hp.
  - (* RelationConfirmed *)
    destruct previous as [[? ? [|b bs] ? ? ?] ? ?], batch; exact Hp.
  - destruct batch; exact Hp.
  - destruct batch; exact Hp.
  - (* OverrideRelationId *)
    destruct selectedRelation0, batch; exact Hp.
  - destruct batch; exact Hp.
  - (* RemoveAnnotation *)
    destruct selectedAnnotation0 as [sel|]; [destruct (isEqual a sel) eqn:E|];
      destruct batch; handlers; rewrite ?E; first [exact Hp | pair_up].
  - (* SelectAnnotation *)
    destruct arg as [a|];
      [destruct (Highlighter.findAnnotationSpans a highlighter0) eqn:E|];
      destruct batch; handlers; rewrite ?E; pair_up.
  - (* SetMode *)
    destruct (decide (mode = "RELATIONS")) as [->|Hm]; unfold run, handle, setMode.
    + rewrite bool_decide_eq_true_2 by done. destruct batch; pair_up.
    + rewrite bool_decide_eq_false_2 by done. destruct batch; exact Hp.
  - destruct batch; exact Hp.
  - destruct batch; exact Hp.
  - destruct batch; exact Hp.
  - destruct batch; exact Hp.
  - (* AnimationFrame *)
    rewrite run_animationFrame by done. exact Hp.
Qed.

Lemma run_override_selection (original : Annotation) (forcedId : string) (w : World)
    (a : Annotation) :
  quiescent w ->
  selectedAnnotation (state w) = Some a ->
  selectedAnnotation (state (run (OverrideAnnotationId original forcedId) w)) = None
  /\ selectedDOMElement (state (run (OverrideAnnotationId original forcedId) w))
     = selectedDOMElement (state w).
Proof.
  intros Hq Ha. destruct (run_overrideAnnotationId original forcedId w Hq) as (_ & -> & _).
  rewrite Ha. cbn. done.
Qed.

(** C3.  Every event but [overrideAnnotationId] keeps the element paired
    with the annotation (see [run_paired]); [overrideAnnotationId] with the
    annotation editor open sets [selectedAnnotation] to null and leaves
    [selectedDOMElement] as it was.  Here: A is selected on element 70, its
    id is overridden, and the state has no annotation but still the
    element. *)
Theorem override_orphans_element :
  let w := run (Select (Some Sample.A) (Some 70)) (Sample.page true Sample.normal) in
  let w' := run (OverrideAnnotationId Sample.A "srv-9") w in
  quiescent w
  /\ paired (state w)
  /\ selectedAnnotation (state w) = Some Sample.A
  /\ selectedAnnotation (state w') = None
  /\ selectedDOMElement (state w') = Some 70
  /\ ~ paired (state w').
Proof.
  split; [reflexivity|]. split; [by split; intros _; eexists|].
  split; [reflexivity|]. split; [reflexivity|]. split; [reflexivity|].
  intros [H _]. destruct H as [x Hx]; [by eexists|]. vm_compute in Hx. discriminate.
Qed.

(** ** What the host is handed *)

Lemma emitted_rev (w w' : World) (new : list Effect) :
  log w' = new ++ log w -> emitted w w' = rev new.
Proof. intros H. apply emitted_intro. by rewrite rev_involutive. Qed.

(** The entries of [l] in front of its tail [tail]. *)
Ltac front l tail :=
  match l with
  | tail => constr:(@nil Effect)
  | ?e :: ?r => let r' := front r tail in constr:(e :: r')
  end.

(** Replace [emitted w w'] by the trace the run leaves, found by running it. *)
Ltac emitted_by_running :=
  match goal with
  | |- context [emitted ?w ?w'] =>
      let after := eval running in (log w') in
      let before := eval cbn [log] in (log w) in
      let new := front after before in
      rewrite (emitted_rev w w' new) by reflexivity
  end.

Lemma storedOids_bound (B : nat) (w : World) :
  Forall (fun o => o < B) (storedOids w) <->
  Forall (fun s => oid (Highlighter.bound s) < B) (highlighter w)
  /\ Forall (fun r => oid (annotation r) < B) (RelationsLayer.relations (relationsLayer w))
  /\ from_option (fun a => oid a < B) True (selectedAnnotation (state w))
  /\ from_option (fun r => oid (annotation r) < B) True (selectedRelation (state w)).
Proof.
  unfold storedOids. rewrite !Forall_app, !Forall_map.
  destruct (selectedAnnotation (state w)), (selectedRelation (state w)); cbn;
    rewrite ?Forall_cons, ?Forall_nil; tauto.
Qed.

Lemma detached_above (B : nat) (w : World) (p : Annotation) :
  Forall (fun o => o < B) (storedOids w) -> B <= oid p -> detached w p.
Proof.
  unfold detached. intros H Hp. eapply Forall_impl; [exact H|]. cbn. intros o Ho. lia.
Qed.

Lemma addOrUpdateAnnotation_elems (n : Element) (a : Annotation)
    (previous : option Annotation) (h : Highlighter.t) (x : Highlighter.Span) :
  x ∈ Highlighter.addOrUpdateAnnotation n a previous h ->
  Highlighter.bound x = a \/ x ∈ h.
Proof.
  unfold Highlighter.addOrUpdateAnnotation. cbv zeta. set (key := fun s => _ || _).
  destruct (existsb key h).
  - intros (y & <- & Hy)%list_elem_of_In%in_map_iff. unfold Highlighter.rebind.
    destruct (key y); [by left|right; by apply list_elem_of_In].
  - intros [Hin|[<-|[]]]%list_elem_of_In%in_app_iff; [right; by apply list_elem_of_In|by left].
Qed.

Lemma addOrUpdateAnnotation_bound (B : nat) (n : Element) (a : Annotation)
    (previous : option Annotation) (h : Highlighter.t) :
  oid a < B ->
  Forall (fun s => oid (Highlighter.bound s) < B) h ->
  Forall (fun s => oid (Highlighter.bound s) < B)
    (Highlighter.addOrUpdateAnnotation n a previous h).
Proof.
  intros Ha Hh. apply Forall_forall. intros x [->|Hx]%addOrUpdateAnnotation_elems; [done|].
  by eapply Forall_forall in Hh.
Qed.

Lemma addOrUpdateRelation_bound (B : nat) (r previous : Relation) (l : RelationsLayer.t) :
  oid (annotation r) < B ->
  Forall (fun x => oid (annotation x) < B) (RelationsLayer.relations l) ->
  Forall (fun x => oid (annotation x) < B)
    (RelationsLayer.relations (RelationsLayer.addOrUpdateRelation r previous l)).
Proof.
  intros Hr Hl. apply Forall_forall.
  intros x [->|[Hx _]]%addOrUpdateRelation_others; [done|].
  by eapply Forall_forall in Hl.
Qed.

Lemma Forall_lt_mono {A} (f : A -> nat) (B B' : nat) (l : list A) :
  B <= B' -> Forall (fun x => f x < B) l -> Forall (fun x => f x < B') l.
Proof. intros HB H. eapply Forall_impl; [exact H|]. cbn. intros. lia. Qed.

(** Replace a component [f w'] of the world after a run by its value. *)
Ltac component f :=
  match goal with
  | |- context [f ?w'] => let v := eval running in (f w') in change (f w') with v
  end.

Ltac stored_below :=
  apply storedOids_bound; component highlighter; component relationsLayer;
  component state;
  cbn [selectedAnnotation selectedRelation from_option RelationsLayer.relations].

Lemma allocated_parts (ev : Event) (w : World) :
  allocated ev w ->
  Forall (fun s => oid (Highlighter.bound s) < nextOid w) (highlighter w)
  /\ Forall (fun r => oid (annotation r) < nextOid w)
       (RelationsLayer.relations (relationsLayer w))
  /\ from_option (fun a => oid a < nextOid w) True (selectedAnnotation (state w))
  /\ from_option (fun r => oid (annotation r) < nextOid w) True (selectedRelation (state w))
  /\ Forall (fun a => oid a < nextOid w) (eventObjects ev).
Proof. intros [H1 H2]. apply storedOids_bound in H1. tauto. Qed.

Lemma payloads_select_existing (selection : Annotation) (element : option Element)
    (w : World) :
  quiescent w -> allocated (Select (Some selection) element) w ->
  isSelection selection = false ->
  let w' := run (Select (Some selection) element) w in
  payloads (emitted w w') = [cloneAt (nextOid w) noProps selection]
  /\ nextOid w' = S (nextOid w)
  /\ Forall (fun o => o < nextOid w) (storedOids w').
Proof.
  intros Hq Hal Hs. apply allocated_parts in Hal as (Hh & Hr & Ha & Hrel & Hev).
  world w. fields s. fields selection. cbn in Hs, Ha, Hrel, Hev. subst.
  apply Forall_cons in Hev as [Hsel _]. cbn in Hsel.
  destruct element, editorDisabled0, batch;
    (split_and!; [emitted_by_running; reflexivity|reflexivity|]);
    stored_below; done.
Qed.

Lemma payloads_relationConfirmed (r previous : Relation) (w : World) :
  quiescent w -> allocated (RelationConfirmed r previous) w ->
  let w' := run (RelationConfirmed r previous) w in
  let c := cloneAt (nextOid w) noProps (annotation r) in
  let p := cloneAt (S (nextOid w)) noProps (annotation previous) in
  payloads (emitted w w')
  = (if bool_decide (length (bodies (annotation previous)) = 0) then [c] else [c; p])
  /\ nextOid w' =
       (if bool_decide (length (bodies (annotation previous)) = 0)
        then S (nextOid w) else S (S (nextOid w)))
  /\ Forall (fun o => o < nextOid w) (storedOids w').
Proof.
  intros Hq Hal. apply allocated_parts in Hal as (Hh & Hr & Ha & Hrel & Hev).
  world w. fields s. cbn in Ha, Hrel, Hev.
  apply Forall_cons in Hev as [Hnew _]. cbn in Hnew.
  destruct previous as [[? ? [|b bs] ? ? ?] ? ?], batch;
    (split_and!; [emitted_by_running; reflexivity|reflexivity|]);
    stored_below; (split_and!; [done| |done|done]);
    by apply addOrUpdateRelation_bound.
Qed.

(** C5.  When the relation editor confirms [(relation, previous)], the
    host receives [onAnnotationCreated] with a clone of the relation's
    annotation and the function that overrides the relation's id if
    [previous]'s annotation has no bodies, and [onAnnotationUpdated] with
    clones of the new and the previous annotation otherwise.  A clone is a
    new object with the content of its original: it is not the object the
    relation wraps, and neither the Highlight Engine, nor the Relation
    Layer, nor the controller state holds it.  In both cases the relation
    is first written to the Relation Layer in place of the entries under
    its own or [previous]'s id, then the relation editor is closed and
    drawing is reset. *)
Theorem relation_confirm_creates_or_updates (r previous : Relation) (w : World) :
  quiescent w ->
  allocated (RelationConfirmed r previous) w ->
  let w' := run (RelationConfirmed r previous) w in
  let c := cloneAt (nextOid w) noProps (annotation r) in
  let p := cloneAt (S (nextOid w)) noProps (annotation previous) in
  let notification :=
    if bool_decide (length (bodies (annotation previous)) = 0)
    then EHost onAnnotationCreated [AAnnotation c; AOverrideRelationId (id (annotation r))]
    else EHost onAnnotationUpdated [AAnnotation c; AAnnotation p] in
  hostCalls (emitted w w') = [notification]
  /\ steps (emitted w w') =
       [EAddOrUpdateRelation r previous; ESetState (selectingRelation None);
        EResetDrawing; notification]
  /\ (sameContent c (annotation r)
      /\ oid c <> oid (annotation r)
      /\ detached w' c)
  /\ (sameContent p (annotation previous)
      /\ oid p <> oid (annotation previous)
      /\ oid p <> oid c
      /\ detached w' p)
  /\ r ∈ RelationsLayer.relations (relationsLayer w')
  /\ (forall x, x ∈ RelationsLayer.relations (relationsLayer w') ->
        x = r
        \/ (x ∈ RelationsLayer.relations (relationsLayer w)
            /\ RelationsLayer.relationId x <> RelationsLayer.relationId r
            /\ RelationsLayer.relationId x <> RelationsLayer.relationId previous))
  /\ selectedRelation (state w') = None
  /\ RelationsLayer.inProgress (relationsLayer w') = false
  /\ (forall forcedId,
        relationsLayer (run (OverrideRelationId (id (annotation r)) forcedId) w') =
        RelationsLayer.overrideRelationId (id (annotation r)) forcedId (relationsLayer w')).
Proof.
  intros Hq Hal w' c p notification.
  destruct (run_relationConfirmed r previous w Hq) as (Hlog & Hst & Hrl & _ & Hcb).
  destruct (payloads_relationConfirmed r previous w Hq Hal) as (_ & _ & Hstored).
  destruct Hal as [_ Hev]. cbn in Hev.
  apply Forall_cons in Hev as [Hr Hev]. apply Forall_cons in Hev as [Hp _].
  cbn in Hr, Hp.
  fold w' c p notification in Hlog, Hst, Hrl, Hcb, Hstored.
  rewrite Hlog, Hst, Hrl. split_and!; try done.
  - unfold notification. by destruct (batching w), (bool_decide _).
  - unfold notification. by destruct (batching w), (bool_decide _).
  - unfold c. cbn. clear - Hr. lia.
  - by apply (detached_above (nextOid w)).
  - unfold p. cbn. clear - Hp. lia.
  - apply (detached_above (nextOid w)); [done|unfold p; cbn; clear; lia].
  - apply addOrUpdateRelation_mem.
  - apply addOrUpdateRelation_others.
  - rewrite <- Hrl. apply Hcb.
Qed.

Lemma relation_confirm_creates_or_updates_witness :
  let w := run (CreateRelation Sample.R)
             (run (SetMode "RELATIONS")
                (withRelationsLayer
                   (RelationsLayer.withRelations []
                      (relationsLayer (Sample.page true Sample.normal)))
                   (Sample.page true Sample.normal))) in
  let w' := run (RelationConfirmed Sample.R Sample.emptyR) w in
  let c := cloneAt (nextOid w) noProps (annotation Sample.R) in
  quiescent w
  /\ allocated (RelationConfirmed Sample.R Sample.emptyR) w
  /\ hostCalls (emitted w w') =
       [EHost onAnnotationCreated [AAnnotation c; AOverrideRelationId "rel-1"]]
  /\ oid c <> oid (annotation Sample.R)
  /\ detached w' c
  /\ RelationsLayer.relations (relationsLayer w') = [Sample.R]
  /\ selectedRelation (state w) = Some Sample.R
  /\ selectedRelation (state w') = None.
Proof.
  split; [reflexivity|].
  assert (allocated (RelationConfirmed Sample.R Sample.emptyR)
            (run (CreateRelation Sample.R)
               (run (SetMode "RELATIONS")
                  (withRelationsLayer
                     (RelationsLayer.withRelations []
                        (relationsLayer (Sample.page true Sample.normal)))
                     (Sample.page true Sample.normal))))) as Hal
    by (split; vm_compute; repeat constructor).
  split; [exact Hal|].
  pose proof (relation_confirm_creates_or_updates Sample.R Sample.emptyR
                (run (CreateRelation Sample.R)
                   (run (SetMode "RELATIONS")
                      (withRelationsLayer
                         (RelationsLayer.withRelations []
                            (relationsLayer (Sample.page true Sample.normal)))
                         (Sample.page true Sample.normal))))
                eq_refl Hal) as (Hhost & _ & (_ & Hoid & Hdet) & _ & _ & _ & Hsel & _).
  split; [exact Hhost|]. split; [exact Hoid|]. split; [exact Hdet|].
  split; [reflexivity|]. split; [reflexivity|]. exact Hsel.
Defined.

Lemma payloads_createOrUpdate (method : HostCallback) (a : Annotation)
    (previous : option Annotation) (w : World) (ev : Event) :
  quiescent w -> allocated ev w ->
  (method = onAnnotationCreated /\ ev = EditorCreated a previous)
  \/ (method = onAnnotationUpdated /\ ev = EditorUpdated a previous) ->
  let w' := run ev w in
  let c := cloneAt (nextOid w) noProps a in
  hostCalls (emitted w w')
  = [EHost method
       [AAnnotation c;
        from_option (fun p => AAnnotation (cloneAt (S (nextOid w)) noProps p)) ANull previous]]
  /\ payloads (emitted w w')
     = c :: option_list (cloneAt (S (nextOid w)) noProps <$> previous)
  /\ nextOid w' =
       match previous with Some _ => S (S (nextOid w)) | None => S (nextOid w) end
  /\ c ∈ Highlighter.getAllAnnotations (highlighter w')
  /\ selectedAnnotation (state w') = Some c
  /\ Forall (fun o => o < S (nextOid w)) (storedOids w').
Proof.
  intros Hq Hal Hev. apply allocated_parts in Hal as (Hh & Hr & Ha & Hrel & _).
  world w. fields s. cbn in Ha, Hrel.
  destruct Hev as [[-> ->]|[-> ->]];
    destruct previous as [p|], batch;
    (split_and!;
     [emitted_by_running; reflexivity|emitted_by_running; reflexivity|reflexivity
     |component highlighter; apply addOrUpdateAnnotation_mem|reflexivity|]);
    stored_below;
    (split_and!;
     [apply addOrUpdateAnnotation_bound; [cbn; lia|by eapply Forall_lt_mono; [|exact Hh]; lia]
     |by eapply Forall_lt_mono; [|exact Hr]; lia
     |cbn; lia
     |destruct selectedRelation0; cbn in *; [lia|done]]).
Qed.

Lemma payloads_headless_draft (selection : Annotation) (element : option Element)
    (w : World) :
  quiescent w ->
  editorDisabled (state w) = true ->
  isSelection selection = true ->
  let w' := run (Select (Some selection) element) w in
  payloads (emitted w w') = [headlessCreated w selection]
  /\ nextOid w' = S (S (S (nextOid w)))
  /\ headlessCreated w selection ∈ Highlighter.getAllAnnotations (highlighter w').
Proof.
  intros Hq Hd Hs w'.
  destruct (run_headless_draft selection element w Hq Hd Hs) as (Hlog & Hhl & _).
  fold w' in Hlog, Hhl. rewrite Hlog, Hhl. split_and!.
  - by destruct (batching w).
  - subst w'. world w. fields s. fields selection. cbn in Hd, Hs. subst.
    by destruct batch.
  - apply addOrUpdateAnnotation_mem.
Qed.

Lemma payloads_passed (ev : Event) (w : World) :
  quiescent w -> passesArgument ev = true ->
  payloads (emitted w (run ev w)) = eventObjects ev.
Proof.
  intros Hq Hp. world w. destruct ev; try discriminate Hp.
  - destruct batch; emitted_by_running; reflexivity.
  - destruct a, batch; emitted_by_running; reflexivity.
  - destruct batch; emitted_by_running; reflexivity.
Qed.

Lemma payloads_frames (ts : list FrameTask) : payloads (map frameEffect ts) = [].
Proof. induction ts as [|[o u] ts IH]; [done|]. exact IH. Qed.

Lemma payloads_silent (ev : Event) (w : World) :
  quiescent w -> silent ev w -> payloads (emitted w (run ev w)) = [].
Proof.
  intros Hq Hs. destruct ev; try done.
  - (* Select *)
    world w. fields s. destruct selection as [sel|].
    + destruct Hs as [Hs Hd]. fields sel. cbn in Hs, Hd. subst.
      destruct batch; emitted_by_running; reflexivity.
    + destruct editorDisabled0, batch; emitted_by_running; reflexivity.
  - (* KeyDown *)
    destruct (decide (which = 27)) as [->|Hk].
    + world w. destruct batch; emitted_by_running; reflexivity.
    + rewrite run_other_key by done. by rewrite (emitted_rev w w []).
  - world w. destruct batch; emitted_by_running; reflexivity.
  - world w. destruct batch; emitted_by_running; reflexivity.
  - world w. destruct batch; emitted_by_running; reflexivity.
  - world w. destruct batch; emitted_by_running; reflexivity.
  - world w. destruct batch; emitted_by_running; reflexivity.
  - (* OverrideAnnotationId *)
    world w. fields s.
    destruct selectedAnnotation0, selectedRelation0, batch; emitted_by_running; reflexivity.
  - (* OverrideRelationId *)
    world w. fields s. destruct selectedRelation0, batch; emitted_by_running; reflexivity.
  - world w. destruct batch; emitted_by_running; reflexivity.
  - (* RemoveAnnotation *)
    world w. fields s.
    destruct selectedAnnotation0 as [sel|]; [destruct (isEqual a sel) eqn:E|];
      destruct batch; handlers; rewrite ?E; emitted_by_running; reflexivity.
  - (* SelectAnnotation *)
    world w.
    destruct arg as [a|];
      [destruct (Highlighter.findAnnotationSpans a highlighter0) eqn:E|];
      destruct batch; handlers; rewrite ?E; emitted_by_running; reflexivity.
  - (* SetMode *)
    world w.
    destruct (decide (mode = "RELATIONS")) as [->|Hm]; unfold run, handle, setMode.
    + rewrite bool_decide_eq_true_2 by done.
      destruct batch; emitted_by_running; reflexivity.
    + rewrite bool_decide_eq_false_2 by done.
      destruct batch; emitted_by_running; reflexivity.
  - world w. destruct batch; emitted_by_running; reflexivity.
  - world w. destruct batch; emitted_by_running; reflexivity.
  - world w. destruct batch; emitted_by_running; reflexivity.
  - world w. destruct batch; emitted_by_running; reflexivity.
  - (* AnimationFrame *)
    rewrite (emitted_rev w _ (rev (map frameEffect (frames w)))).
    + rewrite rev_involutive. apply payloads_frames.
    + rewrite run_animationFrame by done. by world w.
Qed.

(** [getAnnotations] returns clones: new objects with the content of the
    annotations of the Highlight Engine followed by those of the Relation
    Layer. *)
Lemma cloneAll_cons (a : Annotation) (l : list Annotation) (w : World) :
  cloneAll (a :: l) w =
  (cloneAt (nextOid w) noProps a :: (cloneAll l (withNextOid (S (nextOid w)) w)).1,
   (cloneAll l (withNextOid (S (nextOid w)) w)).2).
Proof.
  change (cloneAll (a :: l) w)
    with (let '(cs, w') := cloneAll l (withNextOid (S (nextOid w)) w) in
          (cloneAt (nextOid w) noProps a :: cs, w')).
  by destruct (cloneAll l _).
Qed.

Lemma cloneAll_clones (l : list Annotation) (w : World) :
  Forall (fun c => nextOid w <= oid c) (cloneAll l w).1
  /\ map (cloneAt 0 noProps) (cloneAll l w).1 = map (cloneAt 0 noProps) l
  /\ nextOid w <= nextOid (cloneAll l w).2.
Proof.
  revert w. induction l as [|a l IH]; intros w; [by split_and!|].
  rewrite cloneAll_cons. cbn [fst snd].
  destruct (IH (withNextOid (S (nextOid w)) w)) as (IH1 & IH2 & IH3).
  cbn [nextOid withNextOid] in IH1, IH3.
  split_and!; [constructor; [done|]|cbn; by rewrite IH2|lia].
  eapply Forall_impl; [exact IH1|]. cbn. intros. lia.
Qed.

Lemma getAnnotations_clones (w : World) :
  Forall (fun c => nextOid w <= oid c) (getAnnotations w).1
  /\ map (cloneAt 0 noProps) (getAnnotations w).1
     = map (cloneAt 0 noProps)
         (Highlighter.getAllAnnotations (highlighter w)
          ++ RelationsLayer.getAllRelations (relationsLayer w)).
Proof.
  unfold getAnnotations, mbind, M_bind, get. cbn [fst snd].
  destruct (cloneAll_clones
              (Highlighter.getAllAnnotations (highlighter w)
               ++ RelationsLayer.getAllRelations (relationsLayer w)) w) as (H1 & H2 & _).
  done.
Qed.

Lemma cloneAll_sameContent (l : list Annotation) (w : World) :
  Forall2 sameContent (cloneAll l w).1 l.
Proof.
  revert w. induction l as [|a l IH]; intros w; [constructor|].
  rewrite cloneAll_cons. cbn [fst]. constructor; [by split_and!|apply IH].
Qed.

Lemma getAnnotations_detached (w : World) :
  Forall (fun o => o < nextOid w) (storedOids w) ->
  Forall (detached w) (getAnnotations w).1
  /\ Forall2 sameContent (getAnnotations w).1
       (Highlighter.getAllAnnotations (highlighter w)
        ++ RelationsLayer.getAllRelations (relationsLayer w)).
Proof.
  intros Hst. unfold getAnnotations, mbind, M_bind, get. cbn [fst snd]. split.
  - destruct (cloneAll_clones
                (Highlighter.getAllAnnotations (highlighter w)
                 ++ RelationsLayer.getAllRelations (relationsLayer w)) w) as (H & _ & _).
    eapply Forall_impl; [exact H|]. intros c Hc. by apply (detached_above (nextOid w)).
  - apply cloneAll_sameContent.
Qed.

(** Split the statement into its three classes; the part on
    [getAnnotations] is at hand. *)
Ltac classes :=
  match goal with
  | H : Forall (detached _) _ /\ _ |- _ => split; [|split; [|split; [|exact H]]]
  end.

(** C8, as the code has it.  The annotations handed to the host fall in
    three classes.  Annotation delete, annotation cancel and relation
    delete pass on the very object the handler was given.  The annotation
    create/update path passes a new object that it has put into the
    Highlight Engine: for the editor's create and update it is a clone of
    the handler's argument and it is also the object the handler leaves in
    [selectedAnnotation]; for a headless draft it is the annotation made
    of the stripped selection, and [selectedAnnotation] holds it only when
    React applies [setState] at once (the selection itself when React
    batches); a [previous] that goes with an update is a clone nobody
    holds.  Everything else ([onAnnotationSelected], the notifications of
    a confirmed relation) is a clone of the handler's argument that
    neither the Highlight Engine, nor the Relation Layer, nor the
    controller state holds.  A clone is a new object with the content of
    its original.  [getAnnotations] returns such clones too. *)
Theorem host_payloads_by_path (ev : Event) (w : World) :
  quiescent w -> allocated ev w ->
  let w' := run ev w in
  let ps := payloads (emitted w w') in
  (passesArgument ev = true -> ps = eventObjects ev)
  /\ (createsAnnotation ev w = true ->
      exists c rest,
        ps = c :: rest
        /\ madeBetween w w' c
        /\ c ∈ Highlighter.getAllAnnotations (highlighter w')
        /\ Forall (fun p => madeBetween w w' p /\ detached w' p) rest
        /\ match ev with
           | Select (Some selection) _ =>
               c = headlessCreated w selection
               /\ rest = []
               /\ selectedAnnotation (state w') = Some (if batching w then selection else c)
           | _ =>
               Forall2 sameContent ps (clonedFor ev)
               /\ selectedAnnotation (state w') = Some c
           end)
  /\ (passesArgument ev = false -> createsAnnotation ev w = false ->
      Forall (fun p => madeBetween w w' p /\ detached w' p) ps
      /\ Forall2 sameContent ps (clonedFor ev))
  /\ (Forall (detached w) (getAnnotations w).1
      /\ Forall2 sameContent (getAnnotations w).1
           (Highlighter.getAllAnnotations (highlighter w)
            ++ RelationsLayer.getAllRelations (relationsLayer w))).
Proof.
  intros Hq Hal w' ps.
  assert (Forall (detached w) (getAnnotations w).1
          /\ Forall2 sameContent (getAnnotations w).1
               (Highlighter.getAllAnnotations (highlighter w)
                ++ RelationsLayer.getAllRelations (relationsLayer w))) as Hget.
  { apply getAnnotations_detached. by destruct Hal. }
  assert (silent ev w -> ps = []) as Hsilent by by apply payloads_silent.
  assert (forall a previous method,
            (method = onAnnotationCreated /\ ev = EditorCreated a previous)
            \/ (method = onAnnotationUpdated /\ ev = EditorUpdated a previous) ->
            exists c rest,
              ps = c :: rest /\ madeBetween w w' c
              /\ c ∈ Highlighter.getAllAnnotations (highlighter w')
              /\ Forall (fun p => madeBetween w w' p /\ detached w' p) rest
              /\ Forall2 sameContent ps (a :: option_list previous)
              /\ selectedAnnotation (state w') = Some c) as Hcreate.
  { intros a previous method Hev.
    destruct (payloads_createOrUpdate method a previous w ev Hq Hal Hev)
      as (_ & Hps & Hn & Hin & Hsel & Hst).
    fold w' in Hps, Hn, Hin, Hsel, Hst. fold ps in Hps.
    eexists _, _. split; [exact Hps|]. unfold madeBetween. rewrite Hn.
    split; [cbn; destruct previous; lia|]. split; [exact Hin|].
    split; [|split; [|exact Hsel]].
    - destruct previous as [p|]; cbn; [|constructor].
      repeat constructor; cbn; try lia. by apply (detached_above (S (nextOid w))).
    - rewrite Hps. destruct previous; repeat constructor. }
  destruct ev; cbn [passesArgument createsAnnotation clonedFor].
  all: try (rewrite Hsilent by done; classes; [done|done|by split; constructor]).
  - (* Select *)
    destruct selection as [sel|];
      [|rewrite Hsilent by done; classes; [done|done|by split; constructor]].
    destruct (isSelection sel) eqn:Hs, (editorDisabled (state w)) eqn:Hd; cbn.
    + destruct (payloads_headless_draft sel element w Hq Hd Hs) as (Hps & Hn & Hin).
      destruct (run_headless_draft sel element w Hq Hd Hs) as (_ & _ & Hst).
      fold w' in Hps, Hn, Hin, Hst. fold ps in Hps. classes; [done| |done].
      intros _. exists (headlessCreated w sel), []. unfold madeBetween. rewrite Hn.
      split_and!; [done|cbn; lia|cbn; lia|done|constructor|done|done|].
      rewrite Hst. by destruct (batching w).
    + rewrite Hsilent by done. classes; [done|done|by split; constructor].
    + destruct (payloads_select_existing sel element w Hq Hal Hs) as (Hps & Hn & Hst).
      fold w' in Hps, Hn, Hst. fold ps in Hps. rewrite Hps. classes; [done|done|].
      intros _ _. unfold madeBetween. rewrite Hn.
      split; repeat constructor; cbn; try lia. by apply (detached_above (nextOid w)).
    + destruct (payloads_select_existing sel element w Hq Hal Hs) as (Hps & Hn & Hst).
      fold w' in Hps, Hn, Hst. fold ps in Hps. rewrite Hps. classes; [done|done|].
      intros _ _. unfold madeBetween. rewrite Hn.
      split; repeat constructor; cbn; try lia. by apply (detached_above (nextOid w)).
  - (* EditorCreated *)
    classes; [done| |done]. intros _.
    destruct (Hcreate a previous onAnnotationCreated) as (c & rest & H); [by left|].
    exists c, rest. tauto.
  - (* EditorUpdated *)
    classes; [done| |done]. intros _.
    destruct (Hcreate a previous onAnnotationUpdated) as (c & rest & H); [by right|].
    exists c, rest. tauto.
  - (* EditorDeleted *)
    classes; [|done|done]. intros _. by apply payloads_passed.
  - (* EditorCancel *)
    classes; [|done|done]. intros _. by apply payloads_passed.
  - (* RelationConfirmed *)
    destruct (payloads_relationConfirmed r previous w Hq Hal) as (Hps & Hn & Hst).
    fold w' in Hps, Hn, Hst. fold ps in Hps. rewrite Hps. classes; [done|done|].
    intros _ _. unfold madeBetween. rewrite Hn.
    case_bool_decide; (split; [|by repeat constructor]);
      repeat constructor; cbn; try lia;
      by apply (detached_above (nextOid w)); [|cbn; lia].
  - (* RelationDeleted *)
    classes; [|done|done]. intros _. by apply payloads_passed.
Qed.

Lemma host_payloads_by_path_witness :
  let w := Sample.page true Sample.normal in
  let ev := Select (Some Sample.A) (Some 70) in
  let w' := run ev w in
  quiescent w /\ allocated ev w
  /\ payloads (emitted w w') = [cloneAt 10 noProps Sample.A]
  /\ Forall (fun p => madeBetween w w' p /\ detached w' p) (payloads (emitted w w'))
  /\ Forall2 sameContent (payloads (emitted w w')) [Sample.A].
Proof.
  split; [reflexivity|].
  assert (allocated (Select (Some Sample.A) (Some 70)) (Sample.page true Sample.normal))
    as Hal by (split; vm_compute; repeat constructor).
  split; [exact Hal|]. split; [reflexivity|].
  destruct (host_payloads_by_path (Select (Some Sample.A) (Some 70))
              (Sample.page true Sample.normal) eq_refl Hal) as (_ & _ & Hclones & _).
  apply Hclones; reflexivity.
Defined.

(** C8, as stated, fails.  A is selected.  On cancel the host receives A
    itself, the object the Highlight Engine and the controller state hold;
    on delete it receives A itself as well; on update it receives the
    clone that the handler has stored in the Highlight Engine and in the
    controller state. *)
Lemma host_receives_stored_objects :
  let w := run (Select (Some Sample.A) (Some 70)) (Sample.page true Sample.normal) in
  let cancelled := run (EditorCancel (Some Sample.A)) w in
  let deleted := run (EditorDeleted Sample.A) w in
  let updated := run (EditorUpdated Sample.edited (Some Sample.A)) w in
  let c := cloneAt (nextOid w) noProps Sample.edited in
  selectedAnnotation (state w) = Some Sample.A
  /\ payloads (emitted w cancelled) = [Sample.A]
  /\ Highlighter.getAllAnnotations (highlighter cancelled) = [Sample.A; Sample.B]
  /\ ~ detached cancelled Sample.A
  /\ payloads (emitted w deleted) = [Sample.A]
  /\ payloads (emitted w updated) = [c; cloneAt (S (nextOid w)) noProps Sample.A]
  /\ Highlighter.getAllAnnotations (highlighter updated) = [c; Sample.B]
  /\ selectedAnnotation (state updated) = Some c
  /\ ~ detached updated c.
Proof.
  split_and!; try (vm_compute; reflexivity).
  - intros H. vm_compute in H. apply Forall_cons in H as [H _]. by apply H.
  - intros H. vm_compute in H. apply Forall_cons in H as [H _]. by apply H.
Qed.
